(** * BME690 SensorAPI examples: the COINES glue layer and the sequential-mode example

    A shallow embedding of
      - [examples/common/common.c]   (bus wrappers, result reporting, board bring-up)
      - [examples/sequential_mode/sequential_mode.c]   ([main])
    The C code talks to the outside world only through the COINES board
    library, stdio and the vendor sensor API ([bme69x.c]); those calls are
    recorded in a chronological trace of events, and what they answer is
    read from a [platform] oracle indexed by the trace so far.  The
    properties that are decided inside the sensor API are stated against a
    model of its description, module [SpecModel]. *)

From stdpp Require Import base gmap list strings.
From Stdlib Require Import ZArith Lia.

Open Scope Z_scope.

(** ** Fixed-width integers *)

Definition u8 (x : Z) : Z := x mod 2 ^ 8.
Definition u16 (x : Z) : Z := x mod 2 ^ 16.
Definition u32 (x : Z) : Z := x mod 2 ^ 32.
Definition s8 (x : Z) : Z := (x + 2 ^ 7) mod 2 ^ 8 - 2 ^ 7.
Definition s16 (x : Z) : Z := (x + 2 ^ 15) mod 2 ^ 16 - 2 ^ 15.

(** ** Constants of the headers

    The macros and enumerators that the two files take from [bme69x_defs.h],
    [coines.h] and [limits.h] are parameters of the development. *)

Class Headers := {
  BME69X_OK : Z;
  BME69X_E_NULL_PTR : Z;
  BME69X_E_COM_FAIL : Z;
  BME69X_E_INVALID_LENGTH : Z;
  BME69X_E_DEV_NOT_FOUND : Z;
  BME69X_E_SELF_TEST : Z;
  BME69X_W_NO_NEW_DATA : Z;
  BME69X_I2C_INTF : Z;
  BME69X_SPI_INTF : Z;
  BME69X_I2C_ADDR_LOW : Z;
  BME69X_SEQUENTIAL_MODE : Z;
  BME69X_FILTER_OFF : Z;
  BME69X_ODR_NONE : Z;
  BME69X_OS_1X : Z;
  BME69X_OS_2X : Z;
  BME69X_OS_16X : Z;
  BME69X_ENABLE : Z;
  COINES_SUCCESS : Z;
  COINES_COMM_INTF_USB : Z;
  COINES_I2C_BUS_0 : Z;
  COINES_SPI_BUS_0 : Z;
  COINES_I2C_STANDARD_MODE : Z;
  COINES_SPI_SPEED_7_5_MHZ : Z;
  COINES_SPI_MODE0 : Z;
  COINES_SHUTTLE_PIN_7 : Z;
  COINES_SHUTTLE_PIN_SDO : Z;
  COINES_PIN_DIRECTION_OUT : Z;
  COINES_PIN_VALUE_LOW : Z;
  ULONG_MAX : Z;
}.

(** The labels of the [switch] in [bme69x_check_rslt] are pairwise distinct
    (a C compiler rejects duplicate case labels). *)
Definition distinct_result_codes `{Headers} : Prop :=
  NoDup [BME69X_OK; BME69X_E_NULL_PTR; BME69X_E_COM_FAIL; BME69X_E_INVALID_LENGTH;
         BME69X_E_DEV_NOT_FOUND; BME69X_E_SELF_TEST; BME69X_W_NO_NEW_DATA].

(** [#define BME69X_SHUTTLE_ID 0x93] *)
Definition BME69X_SHUTTLE_ID : Z := 0x93.

(** [#define SAMPLE_COUNT UINT8_C(300)]; [UINT8_C] adds no cast, the
    constant is the [int] 300. *)
Definition SAMPLE_COUNT : Z := 300.

(** ** Pointers, function pointers and the device handle *)

(** Targets of a [void *intf_ptr]: the file-scope [static uint8_t dev_addr],
    some other byte object, or nothing. *)
Inductive ptr :=
| NULL
| addr_of_dev_addr
| addr_of_byte (cell : nat).

#[global] Instance ptr_eq_dec : EqDecision ptr.
Proof. solve_decision. Defined.

Inductive read_fptr := fn_bme69x_i2c_read | fn_bme69x_spi_read.
Inductive write_fptr := fn_bme69x_i2c_write | fn_bme69x_spi_write.
Inductive delay_fptr := fn_bme69x_delay_us.

(** The members of [struct bme69x_dev] that the two files touch.  [None] is
    a member that has not been assigned (an automatic [struct bme69x_dev] is
    not initialised). *)
Record bme69x_dev := mk_dev {
  read : option read_fptr;
  write : option write_fptr;
  delay_us : option delay_fptr;
  intf : option Z;
  intf_ptr : option ptr;
  amb_temp : option Z;
}.

Definition unassigned_dev : bme69x_dev := mk_dev None None None None None None.

Definition set_read f (d : bme69x_dev) := mk_dev (Some f) (write d) (delay_us d) (intf d) (intf_ptr d) (amb_temp d).
Definition set_write f (d : bme69x_dev) := mk_dev (read d) (Some f) (delay_us d) (intf d) (intf_ptr d) (amb_temp d).
Definition set_delay_us f (d : bme69x_dev) := mk_dev (read d) (write d) (Some f) (intf d) (intf_ptr d) (amb_temp d).
Definition set_intf v (d : bme69x_dev) := mk_dev (read d) (write d) (delay_us d) (Some v) (intf_ptr d) (amb_temp d).
Definition set_intf_ptr p (d : bme69x_dev) := mk_dev (read d) (write d) (delay_us d) (intf d) (Some p) (amb_temp d).
Definition set_amb_temp v (d : bme69x_dev) := mk_dev (read d) (write d) (delay_us d) (intf d) (intf_ptr d) (Some v).

(** [struct bme69x_conf] *)
Record bme69x_conf := mk_conf {
  os_hum : Z;
  os_temp : Z;
  os_pres : Z;
  filter : Z;
  odr : Z;
}.

(** [struct bme69x_heatr_conf], with the two profile arrays it points to. *)
Record bme69x_heatr_conf := mk_heatr_conf {
  enable : Z;
  heatr_temp_prof : list Z;
  heatr_dur_prof : list Z;
  profile_len : Z;
}.

(** [struct bme69x_data] in the build without [BME69X_USE_FPU], where every
    member is an integer. *)
Record bme69x_data := mk_data {
  status : Z;
  gas_index : Z;
  meas_index : Z;
  temperature : Z;
  pressure : Z;
  humidity : Z;
  gas_resistance : Z;
}.

(** ** Events *)

Inductive api_call :=
| api_bme69x_init
| api_bme69x_get_conf
| api_bme69x_set_conf (conf : bme69x_conf)
| api_bme69x_set_heatr_conf (op_mode : Z) (conf : bme69x_heatr_conf)
| api_bme69x_set_op_mode (op_mode : Z)
| api_bme69x_get_meas_dur (op_mode : Z) (conf : bme69x_conf)
| api_bme69x_get_data (op_mode : Z).

(** Format strings are kept as they are spelled in the C source, escape
    sequences unexpanded and adjacent literals joined. *)
Inductive printf_arg :=
| arg_str (s : string)
| arg_int (z : Z).

Inductive event :=
| coines_open_comm_intf (intf_type : Z)
| coines_close_comm_intf (intf_type : Z)
| coines_get_board_info
| coines_set_shuttleboard_vdd_vddio_config (vdd vddio : Z)
| coines_set_pin_config (pin direction value : Z)
| coines_config_i2c_bus (bus mode : Z)
| coines_config_spi_bus (bus speed mode : Z)
| coines_delay_msec (ms : Z)
| coines_delay_usec (us : Z)
| coines_get_millis
| coines_soft_reset
| coines_read_i2c (bus dev reg count : Z)
| coines_write_i2c (bus dev reg : Z) (data : list Z) (count : Z)
| coines_read_spi (bus dev reg count : Z)
| coines_write_spi (bus dev reg : Z) (data : list Z) (count : Z)
| fflush_stdout
| printf (format : string) (args : list printf_arg)
| vendor_api (call : api_call).

Definition trace := list event.

(** What the outside world answers, as a function of everything that
    happened up to and including the call.  An answer is brought into the
    range of its C type where it is read. *)
Record platform := {
  open_comm_intf_result : trace -> Z;
  get_board_info_result : trace -> Z;
  board_shuttle_id : trace -> Z;
  bus_transfer_result : trace -> Z;
  bus_read_bytes : trace -> list Z;
  millis : trace -> Z;
  api_rslt : trace -> Z;
  api_conf : trace -> bme69x_conf;
  api_meas_dur : trace -> Z;
  api_n_fields : trace -> Z;
  api_data : trace -> list bme69x_data;
}.

(** ** Program state and the execution monad *)

Record world := mk_world {
  dev_addr : Z;                       (* static uint8_t dev_addr; *)
  bytes : gmap nat Z;                 (* other byte objects a [void *] may point to *)
  handles : gmap nat bme69x_dev;      (* the [struct bme69x_dev] objects *)
  events : trace;
}.

(** A static object starts at zero. *)
Definition initial_world (hs : gmap nat bme69x_dev) : world := mk_world 0 ∅ hs [].

Inductive outcome (A : Type) :=
| Returns (a : A) (w : world)
| Exits (exit_status : Z) (w : world)
| Faults (w : world).
Arguments Returns {A} a w.
Arguments Exits {A} exit_status w.
Arguments Faults {A} w.

Definition M (A : Type) : Type := world -> outcome A.

Definition ret {A} (a : A) : M A := fun w => Returns a w.

Definition bind {A B} (m : M A) (k : A -> M B) : M B :=
  fun w => match m w with
           | Returns a w' => k a w'
           | Exits c w' => Exits c w'
           | Faults w' => Faults w'
           end.

Declare Scope prog_scope.
Delimit Scope prog_scope with prog.
Notation "x <- m ;; k" := (bind m (fun x => k))
  (at level 100, m at next level, right associativity) : prog_scope.
Notation "m ;;; k" := (bind m (fun _ => k))
  (at level 100, right associativity) : prog_scope.
Open Scope prog_scope.

Definition emit (e : event) : M unit :=
  fun w => Returns tt (mk_world (dev_addr w) (bytes w) (handles w) (events w ++ [e])).

Definition ask {A} (f : trace -> A) : M A := fun w => Returns (f (events w)) w.

Definition exit {A} (exit_status : Z) : M A := fun w => Exits exit_status w.

Definition fault {A} : M A := fun w => Faults w.

Definition store_dev_addr (v : Z) : M unit :=
  fun w => Returns tt (mk_world (u8 v) (bytes w) (handles w) (events w)).

(** Reading one [uint8_t] through a pointer. *)
Definition load_u8 (p : ptr) : M Z :=
  fun w => match p with
           | NULL => Faults w
           | addr_of_dev_addr => Returns (dev_addr w) w
           | addr_of_byte c => match bytes w !! c with
                               | Some v => Returns v w
                               | None => Faults w
                               end
           end.

(** [bme->member = v] through a handle pointer. *)
Definition assign (bme : nat) (upd : bme69x_dev -> bme69x_dev) : M unit :=
  fun w => match handles w !! bme with
           | Some d => Returns tt (mk_world (dev_addr w) (bytes w) (<[bme := upd d]> (handles w)) (events w))
           | None => Faults w
           end.

Definition load_dev (bme : nat) : M bme69x_dev :=
  fun w => match handles w !! bme with
           | Some d => Returns d w
           | None => Faults w
           end.

Definition when (b : bool) (m : M unit) : M unit := if b then m else ret tt.

(** ** common.c *)

Section Common.
Context `{Headers} (P : platform).

(** The four bus wrappers.  The bytes read are what the board delivers into
    [reg_data]; the bytes written are the contents of [reg_data]. *)
Definition bme69x_i2c_read (reg_addr len : Z) (intf_ptr : ptr) : M (Z * list Z) :=
  device_addr <- load_u8 intf_ptr ;;
  emit (coines_read_i2c COINES_I2C_BUS_0 device_addr reg_addr (u16 len)) ;;;
  reg_data <- ask (bus_read_bytes P) ;;
  r <- ask (fun t => s8 (bus_transfer_result P t)) ;;
  ret (r, reg_data).

Definition bme69x_i2c_write (reg_addr : Z) (reg_data : list Z) (len : Z) (intf_ptr : ptr) : M Z :=
  device_addr <- load_u8 intf_ptr ;;
  emit (coines_write_i2c COINES_I2C_BUS_0 device_addr reg_addr reg_data (u16 len)) ;;;
  ask (fun t => s8 (bus_transfer_result P t)).

Definition bme69x_spi_read (reg_addr len : Z) (intf_ptr : ptr) : M (Z * list Z) :=
  device_addr <- load_u8 intf_ptr ;;
  emit (coines_read_spi COINES_SPI_BUS_0 device_addr reg_addr (u16 len)) ;;;
  reg_data <- ask (bus_read_bytes P) ;;
  r <- ask (fun t => s8 (bus_transfer_result P t)) ;;
  ret (r, reg_data).

Definition bme69x_spi_write (reg_addr : Z) (reg_data : list Z) (len : Z) (intf_ptr : ptr) : M Z :=
  device_addr <- load_u8 intf_ptr ;;
  emit (coines_write_spi COINES_SPI_BUS_0 device_addr reg_addr reg_data (u16 len)) ;;;
  ask (fun t => s8 (bus_transfer_result P t)).

Definition bme69x_delay_us (period : Z) (intf_ptr : ptr) : M unit :=
  emit (coines_delay_usec period).

Definition bme69x_check_rslt (api_name : string) (rslt : Z) : M unit :=
  if rslt =? BME69X_OK then
    ret tt
  else if rslt =? BME69X_E_NULL_PTR then
    emit (printf "API name [%s]  Error [%d] : Null pointer\r\n" [arg_str api_name; arg_int rslt])
  else if rslt =? BME69X_E_COM_FAIL then
    emit (printf "API name [%s]  Error [%d] : Communication failure\r\n" [arg_str api_name; arg_int rslt])
  else if rslt =? BME69X_E_INVALID_LENGTH then
    emit (printf "API name [%s]  Error [%d] : Incorrect length parameter\r\n" [arg_str api_name; arg_int rslt])
  else if rslt =? BME69X_E_DEV_NOT_FOUND then
    emit (printf "API name [%s]  Error [%d] : Device not found\r\n" [arg_str api_name; arg_int rslt])
  else if rslt =? BME69X_E_SELF_TEST then
    emit (printf "API name [%s]  Error [%d] : Self test error\r\n" [arg_str api_name; arg_int rslt])
  else if rslt =? BME69X_W_NO_NEW_DATA then
    emit (printf "API name [%s]  Warning [%d] : No new data found\r\n" [arg_str api_name; arg_int rslt])
  else
    emit (printf "API name [%s]  Error [%d] : Unknown error code\r\n" [arg_str api_name; arg_int rslt]).

Definition msg_unable_to_connect : string :=
  "\n Unable to connect with Application Board ! \n 1. Check if the board is connected and powered on. \n 2. Check if Application Board USB driver is installed. \n 3. Check if board is in use by another application. (Insufficient permissions to access USB) \n".

Definition msg_invalid_shuttle : string :=
  "! Warning invalid sensor shuttle : 0x%x (Expected : 0x%x) \n ,This application will not support this sensor \n".

(** [bme] is [None] for a NULL handle pointer, [Some b] for the address of
    the handle object [b].  The [setbuf] under [#if defined(PC)] touches
    nothing that is modelled and is left out. *)
Definition bme69x_interface_init (bme : option nat) (intf : Z) : M Z :=
  match bme with
  | Some b =>
      emit (coines_open_comm_intf COINES_COMM_INTF_USB) ;;;
      result <- ask (fun t => s16 (open_comm_intf_result P t)) ;;
      (if result <? COINES_SUCCESS
       then emit (printf msg_unable_to_connect []) ;;; exit result
       else ret tt) ;;;
      emit coines_get_board_info ;;;
      result <- ask (fun t => s16 (get_board_info_result P t)) ;;
      shuttle_id <- ask (fun t => u16 (board_shuttle_id P t)) ;;
      when (result =? COINES_SUCCESS)
        (when (negb (shuttle_id =? BME69X_SHUTTLE_ID))
           (emit (printf msg_invalid_shuttle [arg_int shuttle_id; arg_int BME69X_SHUTTLE_ID]))) ;;;
      emit (coines_set_shuttleboard_vdd_vddio_config 0 0) ;;;
      emit (coines_delay_msec 100) ;;;
      (if intf =? BME69X_I2C_INTF then
         emit (printf "I2C Interface\n" []) ;;;
         store_dev_addr BME69X_I2C_ADDR_LOW ;;;
         assign b (set_read fn_bme69x_i2c_read) ;;;
         assign b (set_write fn_bme69x_i2c_write) ;;;
         assign b (set_intf BME69X_I2C_INTF) ;;;
         emit (coines_set_pin_config COINES_SHUTTLE_PIN_SDO COINES_PIN_DIRECTION_OUT COINES_PIN_VALUE_LOW) ;;;
         emit (coines_config_i2c_bus COINES_I2C_BUS_0 COINES_I2C_STANDARD_MODE)
       else if intf =? BME69X_SPI_INTF then
         emit (printf "SPI Interface\n" []) ;;;
         store_dev_addr COINES_SHUTTLE_PIN_7 ;;;
         assign b (set_read fn_bme69x_spi_read) ;;;
         assign b (set_write fn_bme69x_spi_write) ;;;
         assign b (set_intf BME69X_SPI_INTF) ;;;
         emit (coines_config_spi_bus COINES_SPI_BUS_0 COINES_SPI_SPEED_7_5_MHZ COINES_SPI_MODE0)
       else ret tt) ;;;
      emit (coines_delay_msec 100) ;;;
      emit (coines_set_shuttleboard_vdd_vddio_config 3300 3300) ;;;
      emit (coines_delay_msec 100) ;;;
      assign b (set_delay_us fn_bme69x_delay_us) ;;;
      assign b (set_intf_ptr addr_of_dev_addr) ;;;
      assign b (set_amb_temp 25) ;;;
      ret BME69X_OK
  | None => ret BME69X_E_NULL_PTR
  end.

Definition bme69x_coines_deinit : M unit :=
  emit fflush_stdout ;;;
  emit (coines_set_shuttleboard_vdd_vddio_config 0 0) ;;;
  emit (coines_delay_msec 1000) ;;;
  emit coines_soft_reset ;;;
  emit (coines_delay_msec 1000) ;;;
  emit (coines_close_comm_intf COINES_COMM_INTF_USB).

(** The call [bme.delay_us(period, bme.intf_ptr)] through the function
    pointer of a handle. *)
Definition call_delay_us (d : bme69x_dev) (period : Z) : M unit :=
  match delay_us d, intf_ptr d with
  | Some fn_bme69x_delay_us, Some p => bme69x_delay_us period p
  | _, _ => fault
  end.

End Common.

(** ** sequential_mode.c *)

Section SequentialMode.
Context `{Headers} (P : platform).

(** A call into the vendor sensor API ([bme69x.c]): the call is recorded
    and its [int8_t] result is whatever the platform answers.  The API leaves
    the handle members modelled here (the bus callbacks, [intf_ptr],
    [amb_temp]) as the caller set them. *)
Definition call_api (c : api_call) : M Z :=
  emit (vendor_api c) ;;;
  ask (fun t => s8 (api_rslt P t)).

(** [uint16_t temp_prof[10]] and [uint16_t dur_prof[10]] *)
Definition temp_prof : list Z := [200; 240; 280; 320; 360; 360; 320; 280; 240; 200].
Definition dur_prof : list Z := [100; 100; 100; 100; 100; 100; 100; 100; 100; 100].

(** The object [bme] of [main]. *)
Definition bme : nat := 0%nat.

(** Element [i] of an array object; reading past its end is undefined. *)
Definition index {A} (a : list A) (i : Z) : M A :=
  match a !! Z.to_nat i with
  | Some x => ret x
  | None => fault
  end.

Definition measurement_dur (op_mode : Z) (conf : bme69x_conf) : M Z :=
  emit (vendor_api (api_bme69x_get_meas_dur op_mode conf)) ;;;
  ask (fun t => u32 (api_meas_dur P t)).

(** Lines 47-80: everything before the [while] loop.  Returns [conf] and
    [heatr_conf] as the loop sees them. *)
Definition main_setup : M (bme69x_conf * bme69x_heatr_conf) :=
  rslt <- bme69x_interface_init P (Some bme) BME69X_I2C_INTF ;;
  bme69x_check_rslt "bme69x_interface_init" rslt ;;;
  rslt <- call_api api_bme69x_init ;;
  bme69x_check_rslt "bme69x_init" rslt ;;;
  rslt <- call_api api_bme69x_get_conf ;;
  conf <- ask (api_conf P) ;;
  bme69x_check_rslt "bme69x_get_conf" rslt ;;;
  let conf := mk_conf BME69X_OS_16X BME69X_OS_2X BME69X_OS_1X BME69X_FILTER_OFF BME69X_ODR_NONE in
  rslt <- call_api (api_bme69x_set_conf conf) ;;
  bme69x_check_rslt "bme69x_set_conf" rslt ;;;
  let heatr_conf := mk_heatr_conf BME69X_ENABLE temp_prof dur_prof 10 in
  rslt <- call_api (api_bme69x_set_heatr_conf BME69X_SEQUENTIAL_MODE heatr_conf) ;;
  bme69x_check_rslt "bme69x_set_heatr_conf" rslt ;;;
  rslt <- call_api (api_bme69x_set_op_mode BME69X_SEQUENTIAL_MODE) ;;
  bme69x_check_rslt "bme69x_set_op_mode" rslt ;;;
  emit (printf "Sample, TimeStamp(ms), Temperature(deg C), Pressure(Pa), Humidity(%%), Gas resistance(ohm), Status, Profile index, Measurement index\n" []) ;;;
  ret (conf, heatr_conf).

(** Line 84: the delay period. *)
Definition del_period_of (meas_dur dur0 : Z) : Z := u32 (meas_dur + dur0 * 1000).

(** Lines 93-119: the [for] loop over the fields of one poll.  [n_fields] is
    a [uint8_t], so the loop makes exactly [n_fields] passes with
    [i = 0, 1, ...]: [todo] counts the passes left and [i] is the index of
    the next one.  [data] is [struct bme69x_data data[3]].  Returns
    [sample_count]. *)
Fixpoint print_fields (todo : nat) (i : Z) (data : list bme69x_data)
    (time_ms del_period sample_count : Z) : M Z :=
  match todo with
  | O => ret sample_count
  | S todo' =>
      d <- index data i ;;
      emit (printf "%u, %lu, %d, %lu, %lu, %lu, 0x%x, %d, %d\n"
              [arg_int sample_count;
               arg_int ((time_ms + u32 (i * (del_period / 2000))) mod (ULONG_MAX + 1));
               arg_int (temperature d);
               arg_int (pressure d);
               arg_int (humidity d);
               arg_int (gas_resistance d);
               arg_int (status d);
               arg_int (gas_index d);
               arg_int (meas_index d)]) ;;;
      print_fields todo' (u8 (i + 1)) data time_ms del_period (u16 (sample_count + 1))
  end.

(** Lines 83-119: one pass through the body of the [while] loop. *)
Definition loop_body (conf : bme69x_conf) (heatr_conf : bme69x_heatr_conf)
    (sample_count : Z) : M Z :=
  meas_dur <- measurement_dur BME69X_SEQUENTIAL_MODE conf ;;
  dur0 <- index (heatr_dur_prof heatr_conf) 0 ;;
  let del_period := del_period_of meas_dur dur0 in
  dev <- load_dev bme ;;
  call_delay_us dev del_period ;;;
  emit coines_get_millis ;;;
  time_ms <- ask (fun t => u32 (millis P t)) ;;
  rslt <- call_api (api_bme69x_get_data BME69X_SEQUENTIAL_MODE) ;;
  n_fields <- ask (fun t => u8 (api_n_fields P t)) ;;
  data <- ask (fun t => take 3 (api_data P t)) ;;
  bme69x_check_rslt "bme69x_get_data" rslt ;;;
  print_fields (Z.to_nat n_fields) 0 data time_ms del_period sample_count.

(** How a bounded run of the [while] loop ends. *)
Inductive loop_exit :=
| loop_done (sample_count : Z)       (* the condition became false *)
| loop_running (sample_count : Z).   (* still iterating after the given number of passes *)

(** Lines 81-120, at most [passes] passes. *)
Fixpoint main_loop (passes : nat) (conf : bme69x_conf) (heatr_conf : bme69x_heatr_conf)
    (sample_count : Z) : M loop_exit :=
  if sample_count <=? SAMPLE_COUNT then
    match passes with
    | O => ret (loop_running sample_count)
    | S passes' =>
        sample_count' <- loop_body conf heatr_conf sample_count ;;
        main_loop passes' conf heatr_conf sample_count'
    end
  else ret (loop_done sample_count).

(** [main], with the [while] loop cut after [passes] passes: [Some 0] is the
    return value, [None] a loop still running. *)
Definition main (passes : nat) : M (option Z) :=
  ch <- main_setup ;;
  r <- main_loop passes (fst ch) (snd ch) 1 ;;
  match r with
  | loop_done _ => bme69x_coines_deinit ;;; ret (Some 0)
  | loop_running _ => ret None
  end.

End SequentialMode.

(** ** The sensor API as the specification describes it

    [bme69x.c] (configuration, heater profile, measurement duration, data
    read-out) is not embedded; the properties that are decided there are
    stated against the following model of sections 3 and 4 of the
    specification. *)

Module SpecModel.

(** Modelled from the spec: the error kinds of section 7 (the result codes
    of the missing [bme69x_defs.h]); NoNewData is a warning and is not among
    them. *)
Inductive Fail := NullHandle | ComFail | InvalidLength | DeviceNotFound | SelfTestFailure.

(** Modelled from the spec: [OperatingMode] of section 3. *)
Inductive OperatingMode := SLEEP | FORCED | PARALLEL | SEQUENTIAL.

(** Modelled from the spec: the oversampling levels, the IIR filter settings
    and the output data rates of [DeviceConfig], section 3. *)
Inductive Oversampling := OS_OFF | OS_1x | OS_2x | OS_4x | OS_8x | OS_16x.

Inductive IirFilter := IIR_OFF | IIR_COEFF (coefficients : positive).

Inductive DataRate := ODR_NONE | ODR_CODE (code : Z).

(** Modelled from the spec: [DeviceConfig] of section 3 (the configuration
    structure of the missing [bme69x_defs.h]). *)
Record DeviceConfig := mk_config {
  oversampling_temperature : Oversampling;
  oversampling_pressure : Oversampling;
  oversampling_humidity : Oversampling;
  iir_filter : IirFilter;
  output_data_rate : DataRate;
}.

(** Modelled from the spec: the number of internal samples an oversampling
    level stands for ("repeated internal sampling", glossary). *)
Definition samples (o : Oversampling) : Z :=
  match o with
  | OS_OFF => 0 | OS_1x => 1 | OS_2x => 2 | OS_4x => 4 | OS_8x => 8 | OS_16x => 16
  end.

(** The order of the oversampling levels, OFF < 1x < 2x < 4x < 8x < 16x. *)
Definition level_lt (a b : Oversampling) : Prop := samples a < samples b.

Section Duration.
(** The base constant of each stage and the fixed overhead, in microseconds. *)
Variables (base_temperature base_pressure base_humidity overhead : Z).

(** Modelled from the spec: [measurement_duration] of section 4.3, the
    missing [bme69x_get_meas_dur]: "base per-stage constants per oversampling
    level, summed, plus fixed overhead". *)
Definition measurement_duration (c : DeviceConfig) : Z :=
  base_temperature * samples (oversampling_temperature c)
  + base_pressure * samples (oversampling_pressure c)
  + base_humidity * samples (oversampling_humidity c)
  + overhead.

End Duration.

(** Modelled from the spec: [HeaterProfile] of section 3. *)
Record HeaterProfile := mk_profile {
  steps : list (Z * Z);      (* target_temperature_celsius, duration_ms *)
  enabled : bool;
}.

(** Modelled from the spec: one field of the block the device returns, with
    its new-data bit and the indices kept by the device (section 4.4). *)
Record RawField := mk_raw {
  raw_new_data : bool;
  raw_gas_index : Z;
  raw_meas_index : Z;
}.

(** Modelled from the spec: the device behind the handle, as sections 4.2 to
    4.4 describe it: the heater table last applied, the operating mode, the
    number of measurements completed so far and the fields measured but not
    yet read. *)
Record Sensor := mk_sensor {
  table : list (Z * Z);
  op_mode : OperatingMode;
  measurement_count : Z;
  unread : list RawField;
}.

Section Profile.
(** The device-specific resistance and duration codes of a step. *)
Variable encode : Z * Z -> Z * Z.

(** Modelled from the spec: [set_profile] / [apply_heater_profile] of section
    4.2, the missing [bme69x_set_heatr_conf]: "Validates 1 <= steps <= 10;
    rejects otherwise with InvalidLength.  Encodes each (temperature,
    duration) pair ... and writes the full table in one batch."  The handle
    is [None] when no handle is passed. *)
Definition set_profile (h : option Sensor) (mode : OperatingMode) (p : HeaterProfile)
    : Fail + Sensor :=
  match h with
  | None => inl NullHandle
  | Some s =>
      if (1 <=? length (steps p))%nat && (length (steps p) <=? 10)%nat
      then inr (mk_sensor (map encode (steps p)) (op_mode s) (measurement_count s) (unread s))
      else inl InvalidLength
  end.

End Profile.

(** Modelled from the spec: [set_mode] of section 4.3, the missing
    [bme69x_set_op_mode]: "CONFIGURED -> ARMED: set_mode(SEQUENTIAL) issues a
    register write switching the device out of sleep".  In the state ARMED
    nothing is measured yet (data become ready only from POLLING on), so the
    armed device holds no field to read; the heater table and the count of
    measurements are kept. *)
Definition set_mode (mode : OperatingMode) (s : Sensor) : Sensor :=
  mk_sensor (table s) mode (measurement_count s) [].

(** Modelled from the spec: the device side of section 4.2, "For SEQUENTIAL
    mode the table is consumed cyclically: profile index = measurement_count
    mod steps.length".  One completed measurement adds one new field. *)
Definition measure (s : Sensor) : Sensor :=
  match op_mode s with
  | SEQUENTIAL =>
      mk_sensor (table s) (op_mode s) (measurement_count s + 1)
        (unread s ++ [mk_raw true (measurement_count s mod Z.of_nat (length (table s)))
                                  (measurement_count s mod 2 ^ 8)])
  | _ => s
  end.

(** Modelled from the spec: [MeasurementRecord] of section 3, without the
    physical readings. *)
Record MeasurementRecord := mk_record {
  new_data : bool;
  gas_profile_index : Z;
  measurement_index : Z;
}.

(** Modelled from the spec: the Result Correlator of section 4.4, "Each
    record's gas_profile_index is taken from status bits returned by the
    device, not recomputed locally". *)
Definition decode (f : RawField) : MeasurementRecord :=
  mk_record (raw_new_data f) (raw_gas_index f) (raw_meas_index f).

(** Modelled from the spec: what a poll gives, DATA_READY with its records or
    NO_DATA (section 4.3). *)
Inductive PollResult :=
| Records (rs : list MeasurementRecord)
| NoNewData.

(** Modelled from the spec: [poll] / [read_fields] of sections 4.3 and 4.4,
    the missing [bme69x_get_data]: up to [max_fields] records per poll, and
    the NoNewData warning when no field is new. *)
Definition poll (max_fields : nat) (s : Sensor) : PollResult * Sensor :=
  match take max_fields (unread s) with
  | [] => (NoNewData, s)
  | fs => (Records (map decode fs),
           mk_sensor (table s) (op_mode s) (measurement_count s) (drop max_fields (unread s)))
  end.

Definition records_of (r : PollResult) : list MeasurementRecord :=
  match r with
  | Records rs => rs
  | NoNewData => []
  end.

(** Modelled from the spec: what happens after the device is armed; it
    completes measurements and the host polls, in any order. *)
Inductive Action := Measure | Poll (max_fields : nat).

(** All records the polls of a script return, in order. *)
Fixpoint run (script : list Action) (s : Sensor) : list MeasurementRecord :=
  match script with
  | [] => []
  | Measure :: k => run k (measure s)
  | Poll n :: k => records_of (fst (poll n s)) ++ run k (snd (poll n s))
  end.

End SpecModel.

(** ** Sample constants and boards

    One assignment of the header constants (result codes: 0 for success,
    negative for errors, positive for warnings) and boards that give one
    fixed answer to every call; they serve to run the definitions on concrete
    inputs. *)

Definition vendor_headers : Headers := {|
  BME69X_OK := 0;
  BME69X_E_NULL_PTR := -1;
  BME69X_E_COM_FAIL := -2;
  BME69X_E_DEV_NOT_FOUND := -3;
  BME69X_E_INVALID_LENGTH := -4;
  BME69X_E_SELF_TEST := -5;
  BME69X_W_NO_NEW_DATA := 2;
  BME69X_I2C_INTF := 1;
  BME69X_SPI_INTF := 0;
  BME69X_I2C_ADDR_LOW := 0x76;
  BME69X_SEQUENTIAL_MODE := 3;
  BME69X_FILTER_OFF := 0;
  BME69X_ODR_NONE := 8;
  BME69X_OS_1X := 1;
  BME69X_OS_2X := 2;
  BME69X_OS_16X := 5;
  BME69X_ENABLE := 1;
  COINES_SUCCESS := 0;
  COINES_COMM_INTF_USB := 0;
  COINES_I2C_BUS_0 := 0;
  COINES_SPI_BUS_0 := 0;
  COINES_I2C_STANDARD_MODE := 0;
  COINES_SPI_SPEED_7_5_MHZ := 8;
  COINES_SPI_MODE0 := 0;
  COINES_SHUTTLE_PIN_7 := 0x09;
  COINES_SHUTTLE_PIN_SDO := 0x1F;
  COINES_PIN_DIRECTION_OUT := 1;
  COINES_PIN_VALUE_LOW := 0;
  ULONG_MAX := 2 ^ 32 - 1;
|}.

Definition sample_data : bme69x_data := mk_data 0xB0 0 0 2345 101325 45000 120000.

(** A board that opens ([open_result]), reports shuttle [shuttle], and whose
    sensor API answers [rslt] with [n_fields] fields and a measurement
    duration of [meas_dur] microseconds. *)
Definition sample_board (open_result shuttle rslt n_fields meas_dur : Z) : platform := {|
  open_comm_intf_result := fun _ => open_result;
  get_board_info_result := fun _ => 0;
  board_shuttle_id := fun _ => shuttle;
  bus_transfer_result := fun _ => 0;
  bus_read_bytes := fun _ => [];
  millis := fun t => Z.of_nat (length t);
  api_rslt := fun _ => rslt;
  api_conf := fun _ => mk_conf 0 0 0 0 0;
  api_meas_dur := fun _ => meas_dur;
  api_n_fields := fun _ => n_fields;
  api_data := fun _ => [sample_data; sample_data; sample_data];
|}.

(** A board with the BME690 shuttle and a sensor that answers
    [BME69X_OK]; one with another shuttle; one whose sensor API answers
    [BME69X_E_DEV_NOT_FOUND]; one whose polls answer [BME69X_W_NO_NEW_DATA];
    one whose connection cannot be opened. *)
Definition quiet_board : platform := sample_board 0 0x93 0 1 42590.
Definition wrong_shuttle_board : platform := sample_board 0 0x3D 0 1 42590.
Definition absent_sensor_board : platform := sample_board 0 0x93 (-3) 0 42590.
Definition no_new_data_board : platform := sample_board 0 0x93 2 0 42590.
Definition unplugged_board : platform := sample_board (-2) 0x93 0 1 42590.

(** The world [main] starts in: [bme] exists and is not initialised. *)
Definition main_world : world := initial_world {[ bme := unassigned_dev ]}.

(** A world in which [dev_addr] holds 0x76 and another byte object, cell 0,
    holds 0x42. *)
Definition byte_world : world := mk_world 0x76 {[ 0%nat := 0x42 ]} ∅ [].

(** A world with two handle objects, neither initialised. *)
Definition two_handles_world : world :=
  initial_world (<[1%nat := unassigned_dev]> {[ 0%nat := unassigned_dev ]}).

(** ** Auxiliary definitions for the statements *)

Definition final_world {A} (o : outcome A) : world :=
  match o with
  | Returns _ w => w
  | Exits _ w => w
  | Faults w => w
  end.

(** The world after [bme69x_interface_init(&bme, BME69X_I2C_INTF)] on the
    quiet board. *)
Definition initialised_world : world :=
  final_world (@bme69x_interface_init vendor_headers quiet_board (Some bme) 1 main_world).

Definition add_events (w : world) (evs : trace) : world :=
  mk_world (dev_addr w) (bytes w) (handles w) (events w ++ evs).

Definition is_exit {A} (o : outcome A) : bool :=
  match o with
  | Exits _ _ => true
  | _ => false
  end.

(** What [bme69x_interface_init] leaves in a handle that held [d], in the
    static [dev_addr] that held [a], and in the trace that was [t], when it
    returns. *)
Definition init_dev `{Headers} (sel : Z) (d : bme69x_dev) : bme69x_dev :=
  if sel =? BME69X_I2C_INTF then
    mk_dev (Some fn_bme69x_i2c_read) (Some fn_bme69x_i2c_write) (Some fn_bme69x_delay_us)
      (Some BME69X_I2C_INTF) (Some addr_of_dev_addr) (Some 25)
  else if sel =? BME69X_SPI_INTF then
    mk_dev (Some fn_bme69x_spi_read) (Some fn_bme69x_spi_write) (Some fn_bme69x_delay_us)
      (Some BME69X_SPI_INTF) (Some addr_of_dev_addr) (Some 25)
  else
    mk_dev (read d) (write d) (Some fn_bme69x_delay_us) (intf d) (Some addr_of_dev_addr) (Some 25).

Definition init_dev_addr `{Headers} (sel : Z) (a : Z) : Z :=
  if sel =? BME69X_I2C_INTF then u8 BME69X_I2C_ADDR_LOW
  else if sel =? BME69X_SPI_INTF then u8 COINES_SHUTTLE_PIN_7
  else a.

Definition init_events `{Headers} (P : platform) (sel : Z) (t : trace) : trace :=
  let t1 := t ++ [coines_open_comm_intf COINES_COMM_INTF_USB] in
  let t2 := t1 ++ [coines_get_board_info] in
  [coines_open_comm_intf COINES_COMM_INTF_USB; coines_get_board_info]
  ++ (if (s16 (get_board_info_result P t2) =? COINES_SUCCESS)
         && negb (u16 (board_shuttle_id P t2) =? BME69X_SHUTTLE_ID)
      then [printf msg_invalid_shuttle [arg_int (u16 (board_shuttle_id P t2)); arg_int BME69X_SHUTTLE_ID]]
      else [])
  ++ [coines_set_shuttleboard_vdd_vddio_config 0 0; coines_delay_msec 100]
  ++ (if sel =? BME69X_I2C_INTF then
        [printf "I2C Interface\n" [];
         coines_set_pin_config COINES_SHUTTLE_PIN_SDO COINES_PIN_DIRECTION_OUT COINES_PIN_VALUE_LOW;
         coines_config_i2c_bus COINES_I2C_BUS_0 COINES_I2C_STANDARD_MODE]
      else if sel =? BME69X_SPI_INTF then
        [printf "SPI Interface\n" [];
         coines_config_spi_bus COINES_SPI_BUS_0 COINES_SPI_SPEED_7_5_MHZ COINES_SPI_MODE0]
      else [])
  ++ [coines_delay_msec 100; coines_set_shuttleboard_vdd_vddio_config 3300 3300;
      coines_delay_msec 100].

(** A computation that never terminates the process. *)
Definition no_exit {A} (m : M A) : Prop := forall w, is_exit (m w) = false.

(** A computation that always returns and leaves the handles and the static
    [dev_addr] alone. *)
Definition steady {A} (m : M A) : Prop :=
  forall w, exists a w',
    m w = Returns a w' /\ handles w' = handles w /\ dev_addr w' = dev_addr w.

(** The heater profile of [main] as a [HeaterProfile]: the ten
    (temperature, duration) pairs of [temp_prof] and [dur_prof]. *)
Definition main_profile : SpecModel.HeaterProfile :=
  SpecModel.mk_profile (zip temp_prof dur_prof) true.

(** The scenario of section 8 of the specification. *)
Definition scenario_profile : SpecModel.HeaterProfile :=
  SpecModel.mk_profile [(200, 100); (240, 100); (280, 100)] true.

Definition idle_sensor : SpecModel.Sensor := SpecModel.mk_sensor [] SpecModel.SLEEP 0 [].




(** A computation that keeps a property of the trace. *)
Definition preserves {A} (I : trace -> Prop) (m : M A) : Prop :=
  forall w, I (events w) -> I (events (final_world (m w))).

Definition is_poll (e : event) : bool :=
  match e with
  | vendor_api (api_bme69x_get_data _) => true
  | _ => false
  end.

(** The four events every pass of the [while] loop of [main] starts with,
    when the trace before the pass is [t]: the query of the measurement
    duration, the delay, the time stamp and the poll. *)
Definition poll_events `{Headers} (P : platform) (conf : bme69x_conf) (dur0 : Z) (t : trace)
    : trace :=
  let query := vendor_api (api_bme69x_get_meas_dur BME69X_SEQUENTIAL_MODE conf) in
  [query;
   coines_delay_usec (del_period_of (u32 (api_meas_dur P (t ++ [query]))) dur0);
   coines_get_millis;
   vendor_api (api_bme69x_get_data BME69X_SEQUENTIAL_MODE)].

(** Every poll in the trace ends a group [poll_events]. *)
Definition poll_paced `{Headers} (P : platform) (conf : bme69x_conf) (dur0 : Z) (t : trace)
    : Prop :=
  forall pre post m,
    t = pre ++ vendor_api (api_bme69x_get_data m) :: post ->
    exists pre0,
      pre ++ [vendor_api (api_bme69x_get_data m)] = pre0 ++ poll_events P conf dur0 pre0.

(** [conf] and [heatr_conf] as [main] sets them (lines 58-62 and 67-70). *)
Definition main_conf `{Headers} : bme69x_conf :=
  mk_conf BME69X_OS_16X BME69X_OS_2X BME69X_OS_1X BME69X_FILTER_OFF BME69X_ODR_NONE.

Definition main_heatr_conf `{Headers} : bme69x_heatr_conf :=
  mk_heatr_conf BME69X_ENABLE temp_prof dur_prof 10.

(** Every value a computation returns satisfies [Q]. *)
Definition yields {A} (Q : A -> Prop) (m : M A) : Prop :=
  forall w a w', m w = Returns a w' -> Q a.

(** The trace [t] continues the trace [base]. *)
Definition extends (base t : trace) : Prop := exists rest, t = base ++ rest.

(** What a computation returns, if it returns. *)
Definition result_of {A} (o : outcome A) : option A :=
  match o with
  | Returns a _ => Some a
  | _ => None
  end.

(** The format of a sample row (line 107 of the example). *)
Definition row_format : string := "%u, %lu, %d, %lu, %lu, %lu, 0x%x, %d, %d\n".

(** The sample number on a row; [None] for any other event. *)
Definition row_number (e : event) : option Z :=
  match e with
  | printf format (arg_int n :: _) => if String.eqb format row_format then Some n else None
  | _ => None
  end.

Definition row_numbers (t : trace) : list Z := omap row_number t.

(** The calls into the sensor API, in the order of the trace. *)
Definition api_calls (t : trace) : list api_call :=
  omap (fun e => match e with vendor_api c => Some c | _ => None end) t.

(** The supply of the shuttle board (VDD, VDDIO in millivolt) after the
    events [t], when it was [s] before. *)
Definition supply_step (s : option (Z * Z)) (e : event) : option (Z * Z) :=
  match e with
  | coines_set_shuttleboard_vdd_vddio_config vdd vddio => Some (vdd, vddio)
  | _ => s
  end.

Definition supply_after (s : option (Z * Z)) (t : trace) : option (Z * Z) :=
  foldl supply_step s t.

Definition is_bus_config (e : event) : bool :=
  match e with
  | coines_set_pin_config _ _ _ | coines_config_i2c_bus _ _ | coines_config_spi_bus _ _ _ => true
  | _ => false
  end.

(** Every pin or bus configuration in [t] is made while the supply is
    switched off. *)
Fixpoint configured_unpowered (s : option (Z * Z)) (t : trace) : bool :=
  match t with
  | [] => true
  | e :: t' =>
      (if is_bus_config e then bool_decide (s = Some (0, 0)) else true)
      && configured_unpowered (supply_step s e) t'
  end.

(** The six events of [bme69x_coines_deinit]. *)
Definition deinit_events `{Headers} : trace :=
  [fflush_stdout; coines_set_shuttleboard_vdd_vddio_config 0 0; coines_delay_msec 1000;
   coines_soft_reset; coines_delay_msec 1000; coines_close_comm_intf COINES_COMM_INTF_USB].

(** A board whose every poll delivers three fields. *)
Definition busy_board : platform := sample_board 0 0x93 0 3 42590.

(** The row that the [for] loop of a pass prints for field [i]. *)
Definition row_event `{Headers} (i : Z) (d : bme69x_data)
    (time_ms del_period sample_count : Z) : event :=
  printf row_format
    [arg_int sample_count;
     arg_int ((time_ms + u32 (i * (del_period / 2000))) mod (ULONG_MAX + 1));
     arg_int (temperature d);
     arg_int (pressure d);
     arg_int (humidity d);
     arg_int (gas_resistance d);
     arg_int (status d);
     arg_int (gas_index d);
     arg_int (meas_index d)].

(** The rows [print_fields] prints, and what it returns ([None]: it reads
    past the end of [data]). *)
Fixpoint row_events `{Headers} (todo : nat) (i : Z) (data : list bme69x_data)
    (time_ms del_period sample_count : Z) : trace :=
  match todo with
  | O => []
  | S todo' =>
      match data !! Z.to_nat i with
      | Some d =>
          row_event i d time_ms del_period sample_count
          :: row_events todo' (u8 (i + 1)) data time_ms del_period (u16 (sample_count + 1))
      | None => []
      end
  end.

Fixpoint rows_result (todo : nat) (i : Z) (data : list bme69x_data) (sample_count : Z)
    : option Z :=
  match todo with
  | O => Some sample_count
  | S todo' =>
      match data !! Z.to_nat i with
      | Some _ => rows_result todo' (u8 (i + 1)) data (u16 (sample_count + 1))
      | None => None
      end
  end.

(** The numbers [first], [first + 1], ..., [count] of them. *)
Definition count_from (first : Z) (count : nat) : list Z :=
  map (fun k => first + Z.of_nat k) (seq 0 count).

(** The handle [bme] of [main] can be used for a delay. *)
Definition initialised (w : world) : Prop :=
  exists d p, handles w !! bme = Some d
              /\ delay_us d = Some fn_bme69x_delay_us /\ intf_ptr d = Some p.

(** A computation that always returns, makes the calls [calls] into the
    sensor API, prints no sample row and leaves the handles and [dev_addr]
    alone. *)
Definition makes_calls {A} (m : M A) (calls : list api_call) : Prop :=
  forall w, exists a evs,
    m w = Returns a (add_events w evs)
    /\ api_calls evs = calls /\ row_numbers evs = [].

(** The calls into the sensor API that [main] makes before the loop, and the
    two calls of one pass of the loop. *)
Definition setup_calls `{Headers} : list api_call :=
  [api_bme69x_init; api_bme69x_get_conf; api_bme69x_set_conf main_conf;
   api_bme69x_set_heatr_conf BME69X_SEQUENTIAL_MODE main_heatr_conf;
   api_bme69x_set_op_mode BME69X_SEQUENTIAL_MODE].

Definition pass_calls `{Headers} : list api_call :=
  [api_bme69x_get_meas_dur BME69X_SEQUENTIAL_MODE main_conf;
   api_bme69x_get_data BME69X_SEQUENTIAL_MODE].

(** What [bme69x_check_rslt] prints for a result code: the events of a run
    of it from an empty trace. *)
Definition report_of `{Headers} (api_name : string) (rslt : Z) : trace :=
  events (final_world (bme69x_check_rslt api_name rslt (mk_world 0 ∅ ∅ []))).

(** The trace [t] continued by a call into the sensor API and by the report
    of its result through [bme69x_check_rslt]. *)
Definition after_call `{Headers} (P : platform) (t : trace) (c : api_call)
    (api_name : string) : trace :=
  (t ++ [vendor_api c]) ++ report_of api_name (s8 (api_rslt P (t ++ [vendor_api c]))).

(** The trace of [main] from its start to the head of the loop, on a board
    whose connection opens: the bring-up of the board, then the five calls
    into the sensor API, each followed by the report of its result, then the
    headline. *)
Definition setup_events `{Headers} (P : platform) : trace :=
  let t0 := init_events P BME69X_I2C_INTF [] in
  let t1 := after_call P t0 api_bme69x_init "bme69x_init" in
  let t2 := after_call P t1 api_bme69x_get_conf "bme69x_get_conf" in
  let t3 := after_call P t2 (api_bme69x_set_conf main_conf) "bme69x_set_conf" in
  let t4 := after_call P t3
              (api_bme69x_set_heatr_conf BME69X_SEQUENTIAL_MODE main_heatr_conf)
              "bme69x_set_heatr_conf" in
  let t5 := after_call P t4 (api_bme69x_set_op_mode BME69X_SEQUENTIAL_MODE)
              "bme69x_set_op_mode" in
  t5 ++ [printf "Sample, TimeStamp(ms), Temperature(deg C), Pressure(Pa), Humidity(%%), Gas resistance(ohm), Status, Profile index, Measurement index\n" []].

(** ** Basic facts about the monad and the trace *)

Lemma add_events_nil w : add_events w [] = w.
Proof. destruct w; unfold add_events; simpl. by rewrite app_nil_r. Qed.

Lemma add_events_app w a b : add_events (add_events w a) b = add_events w (a ++ b).
Proof. unfold add_events; simpl. by rewrite app_assoc. Qed.

Lemma emit_add_events e w : emit e w = Returns tt (add_events w [e]).
Proof. reflexivity. Qed.

Lemma bind_returns {A B} (m : M A) (k : A -> M B) w a w' :
  m w = Returns a w' -> bind m k w = k a w'.
Proof. unfold bind. by intros ->. Qed.

Section CommonFacts.
Context `{Headers} (P : platform).

(** The bus wrappers read the device address through [intf_ptr], whatever
    it points to. *)
Lemma wrappers_dereference_intf_ptr p v w reg len data :
  load_u8 p w = Returns v w ->
  final_world (bme69x_i2c_read P reg len p w)
    = add_events w [coines_read_i2c COINES_I2C_BUS_0 v reg (u16 len)]
  /\ final_world (bme69x_i2c_write P reg data len p w)
    = add_events w [coines_write_i2c COINES_I2C_BUS_0 v reg data (u16 len)]
  /\ final_world (bme69x_spi_read P reg len p w)
    = add_events w [coines_read_spi COINES_SPI_BUS_0 v reg (u16 len)]
  /\ final_world (bme69x_spi_write P reg data len p w)
    = add_events w [coines_write_spi COINES_SPI_BUS_0 v reg data (u16 len)].
Proof.
  intros E.
  unfold bme69x_i2c_read, bme69x_i2c_write, bme69x_spi_read, bme69x_spi_write.
  by rewrite !(bind_returns _ _ _ _ _ E).
Qed.

(** Whoever the selector is, a call on a live handle that gets past the
    opening of the board connection returns [BME69X_OK]. *)
Lemma interface_init_returns b d sel w :
  handles w !! b = Some d ->
  COINES_SUCCESS <= s16 (open_comm_intf_result P (events w ++ [coines_open_comm_intf COINES_COMM_INTF_USB])) ->
  bme69x_interface_init P (Some b) sel w =
    Returns BME69X_OK
      (mk_world (init_dev_addr sel (dev_addr w)) (bytes w)
         (<[b := init_dev sel d]> (handles w))
         (events w ++ init_events P sel (events w))).
Proof.
  intros Hb Hopen.
  unfold bme69x_interface_init, init_dev, init_dev_addr, init_events.
  unfold bind, emit, ask, when, assign, store_dev_addr, ret; simpl.
  destruct (Z.ltb_spec (s16 (open_comm_intf_result P (events w ++ [coines_open_comm_intf COINES_COMM_INTF_USB]))) COINES_SUCCESS); [lia|].
  simpl. rewrite <- !app_assoc. simpl.
  destruct (s16 (get_board_info_result P _) =? COINES_SUCCESS); simpl;
    [destruct (negb _); simpl|];
    (destruct (sel =? BME69X_I2C_INTF); [|destruct (sel =? BME69X_SPI_INTF)]);
    simpl; rewrite Hb; simpl;
    repeat (progress (rewrite ?lookup_insert_eq, ?insert_insert_eq; simpl));
    rewrite <- ?app_assoc; reflexivity.
Qed.

(** The only way out of [bme69x_interface_init] other than a return: the
    board connection cannot be opened. *)
Lemma interface_init_exits b sel w :
  s16 (open_comm_intf_result P (events w ++ [coines_open_comm_intf COINES_COMM_INTF_USB])) < COINES_SUCCESS ->
  bme69x_interface_init P (Some b) sel w =
    Exits (s16 (open_comm_intf_result P (events w ++ [coines_open_comm_intf COINES_COMM_INTF_USB])))
      (add_events w [coines_open_comm_intf COINES_COMM_INTF_USB; printf msg_unable_to_connect []]).
Proof.
  intros Hopen.
  unfold bme69x_interface_init, bind, emit, ask, exit, add_events; simpl.
  destruct (Z.ltb_spec (s16 (open_comm_intf_result P (events w ++ [coines_open_comm_intf COINES_COMM_INTF_USB]))) COINES_SUCCESS); [|lia].
  simpl. by rewrite <- app_assoc.
Qed.

End CommonFacts.

(** ** Computations that never terminate the process *)

Lemma no_exit_ret {A} (a : A) : no_exit (ret a).
Proof. by intros w. Qed.

Lemma no_exit_emit e : no_exit (emit e).
Proof. by intros w. Qed.

Lemma no_exit_ask {A} (f : trace -> A) : no_exit (ask f).
Proof. by intros w. Qed.

Lemma no_exit_fault {A} : no_exit (@fault A).
Proof. by intros w. Qed.

Lemma no_exit_load_dev b : no_exit (load_dev b).
Proof. intros w. unfold load_dev. by case_match. Qed.

Lemma no_exit_load_u8 p : no_exit (load_u8 p).
Proof. intros w. unfold load_u8. by repeat case_match. Qed.

Lemma no_exit_bind {A B} (m : M A) (k : A -> M B) :
  no_exit m -> (forall a, no_exit (k a)) -> no_exit (bind m k).
Proof.
  intros Hm Hk w. unfold bind. specialize (Hm w).
  destruct (m w); try done. apply Hk.
Qed.

Create HintDb no_exit.
#[global] Hint Resolve no_exit_ret no_exit_emit no_exit_ask no_exit_fault no_exit_load_dev
  no_exit_load_u8 : no_exit.

Ltac no_exit_steps :=
  repeat (first [ apply no_exit_bind; [|intros ?] | solve [auto with no_exit] ]).

Section NoExit.
Context `{Headers} (P : platform).

Lemma no_exit_check_rslt api_name rslt : no_exit (bme69x_check_rslt api_name rslt).
Proof. unfold bme69x_check_rslt. repeat case_match; auto with no_exit. Qed.

Lemma no_exit_call_api c : no_exit (call_api P c).
Proof. unfold call_api. no_exit_steps. Qed.

Lemma no_exit_index {A} (a : list A) i : no_exit (index a i).
Proof. unfold index. case_match; auto with no_exit. Qed.

Lemma no_exit_call_delay_us d period : no_exit (call_delay_us d period).
Proof. unfold call_delay_us, bme69x_delay_us. repeat case_match; auto with no_exit. Qed.

Lemma no_exit_deinit : no_exit bme69x_coines_deinit.
Proof. unfold bme69x_coines_deinit. no_exit_steps. Qed.

Lemma no_exit_print_fields todo : forall i data time_ms del_period sample_count,
  no_exit (print_fields todo i data time_ms del_period sample_count).
Proof.
  induction todo as [|todo IH]; intros; simpl; [auto with no_exit|].
  apply no_exit_bind; [apply no_exit_index|intros d].
  apply no_exit_bind; [auto with no_exit|intros _]. apply IH.
Qed.

Lemma no_exit_loop_body conf heatr_conf sample_count :
  no_exit (loop_body P conf heatr_conf sample_count).
Proof.
  unfold loop_body, measurement_dur.
  pose proof no_exit_check_rslt. pose proof no_exit_call_api.
  pose proof @no_exit_index. pose proof no_exit_call_delay_us.
  pose proof no_exit_print_fields.
  no_exit_steps.
Qed.

Lemma no_exit_main_loop passes : forall conf heatr_conf sample_count,
  no_exit (main_loop P passes conf heatr_conf sample_count).
Proof.
  induction passes as [|passes IH]; intros; simpl; case_match; auto with no_exit.
  apply no_exit_bind; [apply no_exit_loop_body|intros ?; apply IH].
Qed.

End NoExit.

#[global] Hint Resolve no_exit_check_rslt no_exit_call_api no_exit_index no_exit_call_delay_us
  no_exit_deinit no_exit_print_fields no_exit_loop_body no_exit_main_loop : no_exit.

(** ** bme69x_interface_init *)

(** C8: called with a NULL handle, [bme69x_interface_init] returns
    [BME69X_E_NULL_PTR] and leaves the whole world as it was: no call to the
    board, the bus or a delay is recorded in the trace, the static
    [dev_addr], the byte objects and every handle are unchanged. *)
Theorem interface_init_null_handle `{Headers} (P : platform) (sel : Z) (w : world) :
  bme69x_interface_init P None sel w = Returns BME69X_E_NULL_PTR w.
Proof. reflexivity. Qed.

(** C10: for a selector that is neither [BME69X_I2C_INTF] nor
    [BME69X_SPI_INTF], a call on a live handle that gets past the opening of
    the board connection returns [BME69X_OK]; the handle then has [delay_us],
    [intf_ptr] and [amb_temp = 25] set, while its [read], [write] and [intf]
    members are what they were before the call, and the static [dev_addr] is
    not written. *)
Theorem interface_init_unknown_selector `{Headers} (P : platform) (b : nat)
    (d : bme69x_dev) (sel : Z) (w : world) :
  handles w !! b = Some d ->
  sel <> BME69X_I2C_INTF ->
  sel <> BME69X_SPI_INTF ->
  COINES_SUCCESS <= s16 (open_comm_intf_result P (events w ++ [coines_open_comm_intf COINES_COMM_INTF_USB])) ->
  exists w' d',
    bme69x_interface_init P (Some b) sel w = Returns BME69X_OK w'
    /\ handles w' !! b = Some d'
    /\ delay_us d' = Some fn_bme69x_delay_us
    /\ intf_ptr d' = Some addr_of_dev_addr
    /\ amb_temp d' = Some 25
    /\ read d' = read d /\ write d' = write d /\ intf d' = intf d
    /\ dev_addr w' = dev_addr w.
Proof.
  intros Hb Hi Hs Hopen.
  eexists _, _. split; [by apply interface_init_returns|].
  simpl. rewrite lookup_insert_eq. split; [reflexivity|].
  unfold init_dev, init_dev_addr.
  rewrite (proj2 (Z.eqb_neq _ _) Hi), (proj2 (Z.eqb_neq _ _) Hs). by simpl.
Qed.

Lemma interface_init_unknown_selector_witness :
  exists w' d',
    @bme69x_interface_init vendor_headers quiet_board (Some bme) 7 main_world
      = Returns 0 w'
    /\ handles w' !! bme = Some d'
    /\ delay_us d' = Some fn_bme69x_delay_us
    /\ intf_ptr d' = Some addr_of_dev_addr
    /\ amb_temp d' = Some 25
    /\ read d' = None /\ write d' = None /\ intf d' = None
    /\ dev_addr w' = 0.
Proof.
  apply (@interface_init_unknown_selector vendor_headers quiet_board
           bme unassigned_dev 7 main_world).
  - reflexivity.
  - discriminate.
  - discriminate.
  - vm_compute. discriminate.
Defined.

Lemma init_dev_intf_ptr `{Headers} sel d : intf_ptr (init_dev sel d) = Some addr_of_dev_addr.
Proof. unfold init_dev. by repeat case_match. Qed.

Lemma init_dev_delay_us `{Headers} sel d : delay_us (init_dev sel d) = Some fn_bme69x_delay_us.
Proof. unfold init_dev. by repeat case_match. Qed.

(** C9: the device address is one static slot shared by all handles.
    Initialising handle [b1] with selector [sel1] and then handle [b2] with
    selector [sel2] (on a board whose connection opens) leaves the [intf_ptr]
    of both handles pointing to the static [dev_addr]; each call writes
    [dev_addr] ([BME69X_I2C_ADDR_LOW] for I2C, [COINES_SHUTTLE_PIN_7] for
    SPI), so after the second call the slot holds the address chosen for
    [b2]; and each of the four bus wrappers, given that pointer, makes its
    transfer to the address the slot holds at the time of the call.  The
    wrappers take the address from what [intf_ptr] points to, not from the
    slot by name: given a pointer to another byte object they make the
    transfer to the value of that byte, whatever [dev_addr] holds. *)
Theorem dev_addr_is_shared `{Headers} (P : platform) (b1 b2 : nat) (d1 d2 : bme69x_dev)
    (sel1 sel2 : Z) (w : world) :
  handles w !! b1 = Some d1 ->
  handles w !! b2 = Some d2 ->
  (forall t, COINES_SUCCESS <= s16 (open_comm_intf_result P t)) ->
  exists w1 w2 h1 h2,
    bme69x_interface_init P (Some b1) sel1 w = Returns BME69X_OK w1
    /\ bme69x_interface_init P (Some b2) sel2 w1 = Returns BME69X_OK w2
    /\ handles w2 !! b1 = Some h1 /\ handles w2 !! b2 = Some h2
    /\ intf_ptr h1 = Some addr_of_dev_addr /\ intf_ptr h2 = Some addr_of_dev_addr
    /\ dev_addr w1 =
         (if sel1 =? BME69X_I2C_INTF then u8 BME69X_I2C_ADDR_LOW
          else if sel1 =? BME69X_SPI_INTF then u8 COINES_SHUTTLE_PIN_7 else dev_addr w)
    /\ dev_addr w2 =
         (if sel2 =? BME69X_I2C_INTF then u8 BME69X_I2C_ADDR_LOW
          else if sel2 =? BME69X_SPI_INTF then u8 COINES_SHUTTLE_PIN_7 else dev_addr w1)
    /\ (forall (w' : world) (reg len : Z) (data : list Z),
         final_world (bme69x_i2c_read P reg len addr_of_dev_addr w')
           = add_events w' [coines_read_i2c COINES_I2C_BUS_0 (dev_addr w') reg (u16 len)]
         /\ final_world (bme69x_i2c_write P reg data len addr_of_dev_addr w')
           = add_events w' [coines_write_i2c COINES_I2C_BUS_0 (dev_addr w') reg data (u16 len)]
         /\ final_world (bme69x_spi_read P reg len addr_of_dev_addr w')
           = add_events w' [coines_read_spi COINES_SPI_BUS_0 (dev_addr w') reg (u16 len)]
         /\ final_world (bme69x_spi_write P reg data len addr_of_dev_addr w')
           = add_events w' [coines_write_spi COINES_SPI_BUS_0 (dev_addr w') reg data (u16 len)])
    /\ (forall (w' : world) (cell : nat) (v reg len : Z) (data : list Z),
         bytes w' !! cell = Some v ->
         final_world (bme69x_i2c_read P reg len (addr_of_byte cell) w')
           = add_events w' [coines_read_i2c COINES_I2C_BUS_0 v reg (u16 len)]
         /\ final_world (bme69x_i2c_write P reg data len (addr_of_byte cell) w')
           = add_events w' [coines_write_i2c COINES_I2C_BUS_0 v reg data (u16 len)]
         /\ final_world (bme69x_spi_read P reg len (addr_of_byte cell) w')
           = add_events w' [coines_read_spi COINES_SPI_BUS_0 v reg (u16 len)]
         /\ final_world (bme69x_spi_write P reg data len (addr_of_byte cell) w')
           = add_events w' [coines_write_spi COINES_SPI_BUS_0 v reg data (u16 len)]).
Proof.
  intros Hb1 Hb2 Hopen.
  pose proof (interface_init_returns P b1 d1 sel1 w Hb1 (Hopen _)) as E1.
  set (w1 := mk_world _ _ _ _) in E1.
  assert (exists d2', handles w1 !! b2 = Some d2') as [d2' Hb2'].
  { subst w1; simpl. destruct (decide (b1 = b2)) as [->|Hne].
    - rewrite lookup_insert_eq; eauto.
    - rewrite lookup_insert_ne by done; eauto. }
  pose proof (interface_init_returns P b2 d2' sel2 w1 Hb2' (Hopen _)) as E2.
  set (w2 := mk_world _ _ _ _) in E2.
  assert (exists h1, handles w2 !! b1 = Some h1 /\ intf_ptr h1 = Some addr_of_dev_addr)
    as (h1 & Hh1 & Hp1).
  { subst w2; simpl. destruct (decide (b2 = b1)) as [->|Hne].
    - rewrite lookup_insert_eq. eauto using init_dev_intf_ptr.
    - rewrite lookup_insert_ne by done. subst w1; simpl.
      rewrite lookup_insert_eq. eauto using init_dev_intf_ptr. }
  exists w1, w2, h1, (init_dev sel2 d2').
  split; [done|]. split; [done|]. split; [done|].
  split; [subst w2; simpl; by rewrite lookup_insert_eq|].
  split; [done|]. split; [apply init_dev_intf_ptr|].
  split; [done|]. split; [done|]. split.
  - intros w' reg len data. by apply wrappers_dereference_intf_ptr.
  - intros w' cell v reg len data Hv. apply wrappers_dereference_intf_ptr.
    unfold load_u8. by rewrite Hv.
Qed.

Lemma dev_addr_is_shared_witness :
  exists w1 w2 h1 h2,
    @bme69x_interface_init vendor_headers quiet_board (Some 0%nat) 1 two_handles_world
      = Returns 0 w1
    /\ @bme69x_interface_init vendor_headers quiet_board (Some 1%nat) 0 w1 = Returns 0 w2
    /\ handles w2 !! 0%nat = Some h1 /\ handles w2 !! 1%nat = Some h2
    /\ intf_ptr h1 = Some addr_of_dev_addr /\ intf_ptr h2 = Some addr_of_dev_addr
    /\ dev_addr w1 = 0x76
    /\ dev_addr w2 = 0x09
    /\ (forall (w' : world) (reg len : Z) (data : list Z),
         final_world (@bme69x_i2c_read vendor_headers quiet_board reg len addr_of_dev_addr w')
           = add_events w' [coines_read_i2c 0 (dev_addr w') reg (u16 len)]
         /\ final_world (@bme69x_i2c_write vendor_headers quiet_board reg data len addr_of_dev_addr w')
           = add_events w' [coines_write_i2c 0 (dev_addr w') reg data (u16 len)]
         /\ final_world (@bme69x_spi_read vendor_headers quiet_board reg len addr_of_dev_addr w')
           = add_events w' [coines_read_spi 0 (dev_addr w') reg (u16 len)]
         /\ final_world (@bme69x_spi_write vendor_headers quiet_board reg data len addr_of_dev_addr w')
           = add_events w' [coines_write_spi 0 (dev_addr w') reg data (u16 len)])
    /\ (final_world (@bme69x_i2c_read vendor_headers quiet_board 0xD0 1 (addr_of_byte 0) byte_world)
         = add_events byte_world [coines_read_i2c 0 0x42 0xD0 1]
       /\ final_world (@bme69x_i2c_write vendor_headers quiet_board 0xD0 [0x10] 1
                         (addr_of_byte 0) byte_world)
         = add_events byte_world [coines_write_i2c 0 0x42 0xD0 [0x10] 1]
       /\ final_world (@bme69x_spi_read vendor_headers quiet_board 0xD0 1 (addr_of_byte 0) byte_world)
         = add_events byte_world [coines_read_spi 0 0x42 0xD0 1]
       /\ final_world (@bme69x_spi_write vendor_headers quiet_board 0xD0 [0x10] 1
                         (addr_of_byte 0) byte_world)
         = add_events byte_world [coines_write_spi 0 0x42 0xD0 [0x10] 1]).
Proof.
  destruct (@dev_addr_is_shared vendor_headers quiet_board 0%nat 1%nat
              unassigned_dev unassigned_dev 1 0 two_handles_world)
    as (w1 & w2 & h1 & h2 & E1 & E2 & Hh1 & Hh2 & Hp1 & Hp2 & Ha1 & Ha2 & Hslot & Hbyte).
  - reflexivity.
  - reflexivity.
  - intros t. vm_compute. discriminate.
  - exists w1, w2, h1, h2.
    split; [exact E1|]. split; [exact E2|]. split; [exact Hh1|]. split; [exact Hh2|].
    split; [exact Hp1|]. split; [exact Hp2|]. split; [exact Ha1|]. split; [|split].
    + rewrite Ha2. reflexivity.
    + exact Hslot.
    + apply (Hbyte byte_world 0%nat 0x42 0xD0 1 [0x10]). reflexivity.
Defined.

(** ** Failures at start-up *)

(** C3, as stated, fails: with a shuttle other than the BME690 one
    ([0x3D]) on the board, [bme69x_interface_init] returns [BME69X_OK] (0),
    not [BME69X_E_DEV_NOT_FOUND] (-3); and when [bme69x_init] answers
    [BME69X_E_DEV_NOT_FOUND], [main] does not terminate the process: it prints
    the message of [bme69x_check_rslt] and goes on with [bme69x_get_conf]. *)
Lemma init_failure_is_not_fatal :
  (exists w', @bme69x_interface_init vendor_headers wrong_shuttle_board
                (Some bme) (@BME69X_I2C_INTF vendor_headers) main_world
              = Returns (@BME69X_OK vendor_headers) w')
  /\ @BME69X_OK vendor_headers <> @BME69X_E_DEV_NOT_FOUND vendor_headers
  /\ is_exit (@main vendor_headers absent_sensor_board 3 main_world) = false
  /\ let t := events (final_world (@main vendor_headers absent_sensor_board 3 main_world)) in
     t !! 10%nat = Some (vendor_api api_bme69x_init)
     /\ t !! 11%nat = Some (printf "API name [%s]  Error [%d] : Device not found\r\n"
                              [arg_str "bme69x_init"; arg_int (-3)])
     /\ t !! 12%nat = Some (vendor_api api_bme69x_get_conf).
Proof.
  split; [|split; [discriminate|split]].
  - eexists. apply interface_init_returns; [reflexivity|vm_compute; discriminate].
  - vm_compute. reflexivity.
  - vm_compute. repeat split.
Qed.

Lemma main_exit_iff `{Headers} (P : platform) (passes : nat) :
  is_exit (main P passes main_world) = true
  <-> s16 (open_comm_intf_result P [coines_open_comm_intf COINES_COMM_INTF_USB]) < COINES_SUCCESS.
Proof.
  destruct (Z.lt_ge_cases
              (s16 (open_comm_intf_result P [coines_open_comm_intf COINES_COMM_INTF_USB]))
              COINES_SUCCESS) as [Hlt|Hge].
  - split; [done|intros _].
    unfold main, main_setup, bind.
    by rewrite (interface_init_exits P bme BME69X_I2C_INTF main_world Hlt).
  - split; [|lia]. intros Hexit.
    assert (is_exit (main P passes main_world) = false) as Hno; [|by rewrite Hno in Hexit].
    clear Hexit.
    assert (is_exit (main_setup P main_world) = false) as Hsetup.
    { unfold main_setup.
      erewrite bind_returns by (by apply (interface_init_returns P bme unassigned_dev)).
      match goal with |- is_exit (?m ?w) = false => assert (no_exit m) as Hm; [|apply Hm] end.
      no_exit_steps. }
    unfold main. unfold bind at 1.
    destruct (main_setup P main_world) as [ch w'| |]; try done.
    apply no_exit_bind; [auto with no_exit|]. intros [sc|sc]; no_exit_steps.
Qed.

(** ** The polling loop *)

Section Loop.
Context `{Headers} (P : platform).

Lemma final_world_bind {A B} (m : M A) (k : A -> M B) w :
  final_world (bind m k w)
  = match m w with
    | Returns a w' => final_world (k a w')
    | Exits _ w' | Faults w' => w'
    end.
Proof. unfold bind. by destruct (m w). Qed.

(** One pass on an initialised handle: the four events, then the report of
    the result and the rows. *)
Lemma loop_body_run conf heatr_conf sample_count w d p dur0 :
  handles w !! bme = Some d ->
  delay_us d = Some fn_bme69x_delay_us ->
  intf_ptr d = Some p ->
  heatr_dur_prof heatr_conf !! 0%nat = Some dur0 ->
  let t1 := events w ++ [vendor_api (api_bme69x_get_meas_dur BME69X_SEQUENTIAL_MODE conf)] in
  let del_period := del_period_of (u32 (api_meas_dur P t1)) dur0 in
  let t2 := t1 ++ [coines_delay_usec del_period; coines_get_millis] in
  let t3 := t2 ++ [vendor_api (api_bme69x_get_data BME69X_SEQUENTIAL_MODE)] in
  loop_body P conf heatr_conf sample_count w
  = (bme69x_check_rslt "bme69x_get_data" (s8 (api_rslt P t3)) ;;;
     print_fields (Z.to_nat (u8 (api_n_fields P t3))) 0 (take 3 (api_data P t3))
       (u32 (millis P t2)) del_period sample_count)
      (add_events w (poll_events P conf dur0 (events w))).
Proof.
  intros Hb Hd Hp H0 t1 del_period t2 t3.
  unfold loop_body, measurement_dur, index, load_dev, call_delay_us, bme69x_delay_us, call_api.
  unfold bind, emit, ask, ret. simpl.
  change (Z.to_nat 0) with 0%nat. rewrite H0. simpl. rewrite Hb, Hd, Hp. simpl.
  unfold add_events, poll_events. simpl.
  subst t3 t2 del_period t1. by rewrite <- !app_assoc.
Qed.

Lemma poll_paced_nil conf dur0 : poll_paced P conf dur0 [].
Proof. intros pre post m E. by destruct pre. Qed.

Lemma poll_paced_snoc_poll conf dur0 t m :
  poll_paced P conf dur0 t ->
  (exists pre0, t ++ [vendor_api (api_bme69x_get_data m)]
                = pre0 ++ poll_events P conf dur0 pre0) ->
  poll_paced P conf dur0 (t ++ [vendor_api (api_bme69x_get_data m)]).
Proof.
  intros Ht Hlast pre post m' E.
  destruct post as [|x post _] using rev_ind.
  - apply app_inj_tail in E as [-> [= ->]]. exact Hlast.
  - rewrite app_comm_cons, app_assoc in E.
    apply app_inj_tail in E as [-> _]. by eapply Ht.
Qed.

Lemma poll_paced_snoc conf dur0 t e :
  poll_paced P conf dur0 t -> is_poll e = false -> poll_paced P conf dur0 (t ++ [e]).
Proof.
  intros Ht He pre post m E.
  destruct post as [|x post _] using rev_ind.
  - apply app_inj_tail in E as [_ ->]. discriminate.
  - rewrite app_comm_cons, app_assoc in E.
    apply app_inj_tail in E as [-> _]. by eapply Ht.
Qed.

Lemma poll_paced_app conf dur0 t seg :
  poll_paced P conf dur0 t -> forallb (fun e => negb (is_poll e)) seg = true ->
  poll_paced P conf dur0 (t ++ seg).
Proof.
  revert t. induction seg as [|e seg IH]; intros t Ht Hseg.
  - by rewrite app_nil_r.
  - simpl in Hseg. apply andb_prop in Hseg as [He Hseg].
    rewrite (cons_middle e), app_assoc. apply IH; [|done].
    apply poll_paced_snoc; [done|]. by destruct (is_poll e).
Qed.

Lemma poll_paced_poll_events conf dur0 t :
  poll_paced P conf dur0 t -> poll_paced P conf dur0 (t ++ poll_events P conf dur0 t).
Proof.
  intros Ht. unfold poll_events.
  match goal with
  | |- poll_paced _ _ _ (t ++ [?q; ?d; ?m; ?g]) =>
      change (t ++ [q; d; m; g]) with (t ++ [q; d; m] ++ [g])
  end.
  rewrite app_assoc. apply poll_paced_snoc_poll.
  - by apply poll_paced_app.
  - exists t. unfold poll_events. by rewrite <- app_assoc.
Qed.

Lemma extends_refl t : extends t t.
Proof. exists []. by rewrite app_nil_r. Qed.

Lemma extends_snoc base t e : extends base t -> extends base (t ++ [e]).
Proof. intros [rest ->]. exists (rest ++ [e]). by rewrite app_assoc. Qed.

(** Keeping a property of the trace, step by step. *)
Lemma preserves_bind {A B} (I : trace -> Prop) (m : M A) (k : A -> M B) :
  preserves I m -> (forall a, preserves I (k a)) -> preserves I (bind m k).
Proof.
  intros Hm Hk w Hw. rewrite final_world_bind. specialize (Hm w Hw).
  destruct (m w); try done. by apply Hk.
Qed.

Lemma preserves_silent {A} (I : trace -> Prop) (m : M A) :
  (forall w, events (final_world (m w)) = events w) -> preserves I m.
Proof. intros Hm w Hw. by rewrite Hm. Qed.

Lemma preserves_emit conf dur0 e :
  is_poll e = false -> preserves (poll_paced P conf dur0) (emit e).
Proof. intros He w Hw. simpl. by apply poll_paced_snoc. Qed.

Lemma extends_emit base e : preserves (extends base) (emit e).
Proof. intros w Hw. simpl. by apply extends_snoc. Qed.

Lemma preserves_ret {A} I (a : A) : preserves I (ret a).
Proof. by apply preserves_silent. Qed.

Lemma preserves_ask {A} I (f : trace -> A) : preserves I (ask f).
Proof. by apply preserves_silent. Qed.

Lemma preserves_fault {A} I : preserves I (@fault A).
Proof. by apply preserves_silent. Qed.

Lemma preserves_exit {A} I c : preserves I (@exit A c).
Proof. by apply preserves_silent. Qed.

Lemma preserves_assign I b upd : preserves I (assign b upd).
Proof. apply preserves_silent. intros w. unfold assign. by case_match. Qed.

Lemma preserves_store_dev_addr I v : preserves I (store_dev_addr v).
Proof. by apply preserves_silent. Qed.

Lemma preserves_load_dev I b : preserves I (load_dev b).
Proof. apply preserves_silent. intros w. unfold load_dev. by case_match. Qed.

Lemma preserves_index {A} I (a : list A) i : preserves I (index a i).
Proof. apply preserves_silent. intros w. unfold index. by case_match. Qed.

End Loop.

Create HintDb preserves.
#[global] Hint Resolve preserves_ret preserves_ask preserves_fault preserves_exit preserves_assign
  preserves_store_dev_addr preserves_load_dev preserves_index extends_emit : preserves.
#[global] Hint Extern 1 (preserves (poll_paced _ _ _) (emit _)) =>
  (apply preserves_emit; reflexivity) : preserves.

Ltac preserves_steps :=
  repeat (first [ apply preserves_bind; [|intros ?]
                | solve [auto with preserves]
                | progress unfold when
                | case_match ]).

Section LoopTrace.
Context `{Headers} (P : platform).

Lemma preserves_check_rslt conf dur0 api_name rslt :
  preserves (poll_paced P conf dur0) (bme69x_check_rslt api_name rslt).
Proof. unfold bme69x_check_rslt. preserves_steps. Qed.

Lemma extends_check_rslt base api_name rslt :
  preserves (extends base) (bme69x_check_rslt api_name rslt).
Proof. unfold bme69x_check_rslt. preserves_steps. Qed.

Lemma preserves_interface_init conf dur0 b sel :
  preserves (poll_paced P conf dur0) (bme69x_interface_init P b sel).
Proof. unfold bme69x_interface_init. preserves_steps. Qed.

Lemma preserves_deinit conf dur0 : preserves (poll_paced P conf dur0) bme69x_coines_deinit.
Proof. unfold bme69x_coines_deinit. preserves_steps. Qed.

Lemma preserves_print_fields conf dur0 todo : forall i data time_ms del_period sample_count,
  preserves (poll_paced P conf dur0) (print_fields todo i data time_ms del_period sample_count).
Proof.
  induction todo as [|todo IH]; intros; simpl; [auto with preserves|].
  apply preserves_bind; [auto with preserves|intros d].
  apply preserves_bind; [auto with preserves|intros _]. apply IH.
Qed.

Lemma extends_print_fields base todo : forall i data time_ms del_period sample_count,
  preserves (extends base) (print_fields todo i data time_ms del_period sample_count).
Proof.
  induction todo as [|todo IH]; intros; simpl; [auto with preserves|].
  apply preserves_bind; [auto with preserves|intros d].
  apply preserves_bind; [auto with preserves|intros _]. apply IH.
Qed.

(** One pass of the loop keeps the trace paced, whether or not the handle
    was initialised. *)
Lemma preserves_loop_body conf heatr_conf sample_count dur0 :
  heatr_dur_prof heatr_conf !! 0%nat = Some dur0 ->
  preserves (poll_paced P conf dur0) (loop_body P conf heatr_conf sample_count).
Proof.
  intros H0 w Hw.
  destruct (handles w !! bme) as [d|] eqn:Hb;
    [destruct (delay_us d) as [[]|] eqn:Hd; [destruct (intf_ptr d) as [p|] eqn:Hp|]|].
  - rewrite (loop_body_run P conf heatr_conf sample_count w d p dur0) by done.
    apply preserves_bind.
    + apply preserves_check_rslt.
    + intros _. apply preserves_print_fields.
    + simpl. by apply poll_paced_poll_events.
  - unfold loop_body, measurement_dur, index, load_dev, call_delay_us, bind, emit, ask, ret.
    simpl. change (Z.to_nat 0) with 0%nat. rewrite H0. simpl. rewrite Hb, Hd, Hp. simpl.
    by apply poll_paced_snoc.
  - unfold loop_body, measurement_dur, index, load_dev, call_delay_us, bind, emit, ask, ret.
    simpl. change (Z.to_nat 0) with 0%nat. rewrite H0. simpl. rewrite Hb, Hd. simpl.
    by apply poll_paced_snoc.
  - unfold loop_body, measurement_dur, index, load_dev, call_delay_us, bind, emit, ask, ret.
    simpl. change (Z.to_nat 0) with 0%nat. rewrite H0. simpl. rewrite Hb. simpl.
    by apply poll_paced_snoc.
Qed.

Lemma preserves_main_loop conf heatr_conf dur0 passes : forall sample_count,
  heatr_dur_prof heatr_conf !! 0%nat = Some dur0 ->
  preserves (poll_paced P conf dur0) (main_loop P passes conf heatr_conf sample_count).
Proof.
  induction passes as [|passes IH]; intros sc H0; simpl; case_match; auto with preserves.
  apply preserves_bind; [by apply preserves_loop_body|intros ?; by apply IH].
Qed.

End LoopTrace.

(** ** The example as a whole *)

Lemma yields_bind {A B} (Q : B -> Prop) (m : M A) (k : A -> M B) :
  (forall a, yields Q (k a)) -> yields Q (bind m k).
Proof.
  intros Hk w b w' E. unfold bind in E.
  destruct (m w) as [a w1| |] eqn:Em; try done. by eapply Hk.
Qed.

Lemma yields_ret {A} (Q : A -> Prop) (a : A) : Q a -> yields Q (ret a).
Proof. intros Ha w a' w' [= <- _]. exact Ha. Qed.

Lemma steady_bind {A B} (m : M A) (k : A -> M B) :
  steady m -> (forall a, steady (k a)) -> steady (bind m k).
Proof.
  intros Hm Hk w. destruct (Hm w) as (a & w1 & E1 & Hh1 & Ha1).
  destruct (Hk a w1) as (b & w2 & E2 & Hh2 & Ha2).
  exists b, w2. rewrite (bind_returns _ _ _ _ _ E1). by rewrite <- Hh1, <- Ha1.
Qed.

Lemma steady_ret {A} (a : A) : steady (ret a).
Proof. intros w. by exists a, w. Qed.

Lemma steady_emit e : steady (emit e).
Proof. intros w. by eexists tt, _. Qed.

Lemma steady_ask {A} (f : trace -> A) : steady (ask f).
Proof. intros w. by eexists _, w. Qed.

Lemma steady_check_rslt `{Headers} api_name rslt : steady (bme69x_check_rslt api_name rslt).
Proof.
  unfold bme69x_check_rslt.
  repeat case_match; auto using steady_ret, steady_emit.
Qed.

Section Main.
Context `{Headers} (P : platform).

Lemma main_setup_yields :
  yields (fun ch => ch = (main_conf, main_heatr_conf)) (main_setup P).
Proof.
  unfold main_setup.
  repeat (apply yields_bind; intros ?). by apply yields_ret.
Qed.

(** When the board connection opens, the set-up part of [main] reaches the
    loop with [bme] initialised for I2C, whatever the sensor API answers. *)
Lemma main_setup_returns :
  COINES_SUCCESS <= s16 (open_comm_intf_result P [coines_open_comm_intf COINES_COMM_INTF_USB]) ->
  exists w',
    main_setup P main_world = Returns (main_conf, main_heatr_conf) w'
    /\ handles w' !! bme = Some (init_dev BME69X_I2C_INTF unassigned_dev).
Proof.
  intros Hopen.
  assert (exists ch w', main_setup P main_world = Returns ch w'
            /\ handles w' !! bme = Some (init_dev BME69X_I2C_INTF unassigned_dev))
    as (ch & w' & E & Hb).
  { unfold main_setup.
    erewrite bind_returns by (by apply (interface_init_returns P bme unassigned_dev)).
    match goal with
    | |- exists ch w', ?m ?w = _ /\ _ =>
        assert (steady m) as Hm; [|destruct (Hm w) as (ch & w' & E & Hh & _)]
    end.
    { unfold call_api.
      repeat (first [ apply steady_bind; [|intros ?]
                    | apply steady_check_rslt | apply steady_emit
                    | apply steady_ask | apply steady_ret ]). }
    exists ch, w'. split; [done|]. rewrite Hh. simpl. by rewrite lookup_insert_eq. }
  exists w'. split; [|done].
  by rewrite E, (main_setup_yields _ _ _ E).
Qed.

(** So the passes of the loop in [main] start from a handle whose
    [delay_us] and [intf_ptr] are set. *)
Lemma loop_entry_is_initialised :
  COINES_SUCCESS <= s16 (open_comm_intf_result P [coines_open_comm_intf COINES_COMM_INTF_USB]) ->
  exists w' d,
    main_setup P main_world = Returns (main_conf, main_heatr_conf) w'
    /\ handles w' !! bme = Some d
    /\ delay_us d = Some fn_bme69x_delay_us
    /\ intf_ptr d = Some addr_of_dev_addr.
Proof.
  intros Hopen. destruct (main_setup_returns Hopen) as (w' & E & Hb).
  exists w', (init_dev BME69X_I2C_INTF unassigned_dev).
  auto using init_dev_delay_us, init_dev_intf_ptr.
Qed.

Lemma preserves_main_setup conf dur0 : preserves (poll_paced P conf dur0) (main_setup P).
Proof.
  unfold main_setup, call_api.
  pose proof (preserves_check_rslt P conf dur0).
  pose proof (preserves_interface_init P conf dur0).
  preserves_steps.
Qed.

Lemma main_paced passes :
  poll_paced P main_conf 100 (events (final_world (main P passes main_world))).
Proof.
  unfold main. rewrite final_world_bind.
  pose proof (preserves_main_setup main_conf 100 main_world (poll_paced_nil P _ _)) as Hs.
  destruct (main_setup P main_world) as [ch w'| |] eqn:E; try done.
  apply main_setup_yields in E as ->. simpl in *.
  apply preserves_bind; [by apply preserves_main_loop| |done].
  intros [sc|sc]; [|auto with preserves].
  apply preserves_bind; [apply preserves_deinit|auto with preserves].
Qed.

End Main.

(** C5: in every run of [main], each call of [bme69x_get_data] comes
    directly after the blocking delay of the computed wait: the three events
    before the poll are the query of the measurement duration for the
    configuration [main] has set, the call of [coines_delay_usec] (through
    [bme.delay_us]) with the delay period computed from the answer to that
    query and the first heater duration (100 ms), and the reading of the time
    stamp [coines_get_millis]; no other event lies between the delay and the
    poll. *)
Theorem delay_precedes_every_poll `{Headers} (P : platform) (passes : nat)
    (pre post : trace) (m : Z) :
  events (final_world (main P passes main_world))
    = pre ++ vendor_api (api_bme69x_get_data m) :: post ->
  exists pre0,
    let query := vendor_api (api_bme69x_get_meas_dur BME69X_SEQUENTIAL_MODE main_conf) in
    pre = pre0 ++ [query;
                   coines_delay_usec
                     (del_period_of (u32 (api_meas_dur P (pre0 ++ [query]))) 100);
                   coines_get_millis]
    /\ m = BME69X_SEQUENTIAL_MODE.
Proof.
  intros E. destruct (main_paced P passes pre post m E) as [pre0 E0].
  exists pre0. unfold poll_events in E0.
  match type of E0 with
  | _ = pre0 ++ [?q; ?d; ?t; ?g] =>
      change (pre0 ++ [q; d; t; g]) with (pre0 ++ [q; d; t] ++ [g]) in E0
  end.
  rewrite app_assoc in E0. apply app_inj_tail in E0 as [-> [= ->]]. done.
Qed.

Lemma delay_precedes_every_poll_witness :
  exists pre0,
    take 19 (events (final_world (@main vendor_headers quiet_board 1 main_world)))
    = pre0 ++ [vendor_api (api_bme69x_get_meas_dur 3 (mk_conf 5 2 1 0 8));
               coines_delay_usec 142590;
               coines_get_millis]
    /\ 3 = 3.
Proof.
  apply (@delay_precedes_every_poll vendor_headers quiet_board 1
           (take 19 (events (final_world (@main vendor_headers quiet_board 1 main_world))))
           (drop 20 (events (final_world (@main vendor_headers quiet_board 1 main_world))))
           3).
  vm_compute. reflexivity.
Defined.

(** C1: the wait of one pass of the loop.  On an initialised handle, a pass
    first asks [bme69x_get_meas_dur] for the measurement duration of the
    current configuration, then calls the microsecond delay
    [coines_delay_usec] with that duration plus 1000 times the first entry
    of the heater duration profile, in [uint32_t] arithmetic, and only then
    reads the time stamp and polls.  Whenever the sum fits 32 bits the delay
    is exactly the sum; with the profile of [main] the second summand is
    100000 microseconds. *)
Theorem wait_is_meas_dur_plus_first_heater_step `{Headers} (P : platform)
    (conf : bme69x_conf) (heatr_conf : bme69x_heatr_conf) (sample_count : Z)
    (w : world) (d : bme69x_dev) (p : ptr) (dur0 : Z) :
  handles w !! bme = Some d ->
  delay_us d = Some fn_bme69x_delay_us ->
  intf_ptr d = Some p ->
  heatr_dur_prof heatr_conf !! 0%nat = Some dur0 ->
  let query := vendor_api (api_bme69x_get_meas_dur BME69X_SEQUENTIAL_MODE conf) in
  let meas_dur := u32 (api_meas_dur P (events w ++ [query])) in
  (exists rest,
     events (final_world (loop_body P conf heatr_conf sample_count w))
     = events w ++ [query;
                    coines_delay_usec ((meas_dur + dur0 * 1000) mod 2 ^ 32);
                    coines_get_millis;
                    vendor_api (api_bme69x_get_data BME69X_SEQUENTIAL_MODE)] ++ rest)
  /\ (0 <= dur0 -> meas_dur + dur0 * 1000 < 2 ^ 32 ->
      (meas_dur + dur0 * 1000) mod 2 ^ 32 = meas_dur + dur0 * 1000)
  /\ heatr_dur_prof main_heatr_conf !! 0%nat = Some 100.
Proof.
  intros Hb Hd Hp H0 query meas_dur. split; [|split; [|done]].
  - assert (extends (events w ++ poll_events P conf dur0 (events w))
              (events (final_world (loop_body P conf heatr_conf sample_count w))))
      as [rest E]; [|exists rest; by rewrite E, <- app_assoc].
    rewrite (loop_body_run P conf heatr_conf sample_count w d p dur0) by done.
    apply preserves_bind.
    + apply extends_check_rslt.
    + intros _. apply extends_print_fields.
    + apply extends_refl.
  - intros Hdur Hfit. apply Z.mod_small. split; [|done].
    assert (0 <= meas_dur) by (apply Z.mod_pos_bound; lia). lia.
Qed.

Lemma wait_is_meas_dur_plus_first_heater_step_witness :
  (exists rest,
     events (final_world (@loop_body vendor_headers quiet_board
                            (@main_conf vendor_headers) (@main_heatr_conf vendor_headers) 1
                            initialised_world))
     = events initialised_world
       ++ [vendor_api (api_bme69x_get_meas_dur 3 (@main_conf vendor_headers));
           coines_delay_usec ((42590 + 100 * 1000) mod 2 ^ 32);
           coines_get_millis;
           vendor_api (api_bme69x_get_data 3)] ++ rest)
  /\ (0 <= 100 -> 42590 + 100 * 1000 < 2 ^ 32 ->
      (42590 + 100 * 1000) mod 2 ^ 32 = 42590 + 100 * 1000)
  /\ heatr_dur_prof (@main_heatr_conf vendor_headers) !! 0%nat = Some 100.
Proof.
  apply (@wait_is_meas_dur_plus_first_heater_step vendor_headers quiet_board
           (@main_conf vendor_headers) (@main_heatr_conf vendor_headers) 1
           initialised_world
           (@init_dev vendor_headers 1 unassigned_dev) addr_of_dev_addr 100);
    reflexivity.
Defined.

(** ** The result code of a poll *)

Lemma check_rslt_no_new_data `{Headers} (api_name : string) (w : world) :
  distinct_result_codes ->
  bme69x_check_rslt api_name BME69X_W_NO_NEW_DATA w
  = Returns tt (add_events w
      [printf "API name [%s]  Warning [%d] : No new data found\r\n"
         [arg_str api_name; arg_int BME69X_W_NO_NEW_DATA]]).
Proof.
  unfold distinct_result_codes. rewrite !NoDup_cons, !not_elem_of_cons.
  intros Hd. destruct_and!. unfold bme69x_check_rslt.
  repeat match goal with
         | |- context [BME69X_W_NO_NEW_DATA =? ?c] =>
             destruct (Z.eqb_spec BME69X_W_NO_NEW_DATA c) as [E|Hne]; [congruence|clear Hne]
         end.
  by rewrite Z.eqb_refl.
Qed.

(** C4: [BME69X_W_NO_NEW_DATA] is a warning.  [bme69x_check_rslt] prints
    the line "Warning ... No new data found" for it and returns; no pass of
    the polling loop terminates the process, whatever the poll answers; and a
    pass whose poll answers [BME69X_W_NO_NEW_DATA] with no field returns to
    the head of the loop with [sample_count] unchanged, so the loop goes on
    with the next pass. *)
Theorem no_new_data_is_a_warning `{Headers} (P : platform) :
  distinct_result_codes ->
  (forall api_name w,
     bme69x_check_rslt api_name BME69X_W_NO_NEW_DATA w
     = Returns tt (add_events w
         [printf "API name [%s]  Warning [%d] : No new data found\r\n"
            [arg_str api_name; arg_int BME69X_W_NO_NEW_DATA]]))
  /\ (forall conf heatr_conf sample_count w,
        is_exit (loop_body P conf heatr_conf sample_count w) = false)
  /\ (forall passes conf heatr_conf sample_count w d p dur0,
        handles w !! bme = Some d ->
        delay_us d = Some fn_bme69x_delay_us ->
        intf_ptr d = Some p ->
        heatr_dur_prof heatr_conf !! 0%nat = Some dur0 ->
        sample_count <= SAMPLE_COUNT ->
        let t := events w ++ poll_events P conf dur0 (events w) in
        s8 (api_rslt P t) = BME69X_W_NO_NEW_DATA ->
        u8 (api_n_fields P t) = 0 ->
        let w' := add_events w
                    (poll_events P conf dur0 (events w)
                     ++ [printf "API name [%s]  Warning [%d] : No new data found\r\n"
                           [arg_str "bme69x_get_data"; arg_int BME69X_W_NO_NEW_DATA]]) in
        loop_body P conf heatr_conf sample_count w = Returns sample_count w'
        /\ main_loop P (S passes) conf heatr_conf sample_count w
           = main_loop P passes conf heatr_conf sample_count w').
Proof.
  intros Hd. split; [|split].
  - intros. by apply check_rslt_no_new_data.
  - intros. apply no_exit_loop_body.
  - intros passes conf heatr_conf sc w d p dur0 Hb Hdl Hp H0 Hsc t Hr Hn w'.
    assert (loop_body P conf heatr_conf sc w = Returns sc w') as E.
    { rewrite (loop_body_run P conf heatr_conf sc w d p dur0) by done.
      unfold poll_events in *. simpl in *.
      subst t. rewrite <- !app_assoc. simpl.
      rewrite Hr, Hn.
      erewrite bind_returns by (by apply check_rslt_no_new_data).
      simpl. unfold ret. by rewrite add_events_app. }
    split; [done|]. simpl.
    destruct (Z.leb_spec sc SAMPLE_COUNT); [|lia].
    by rewrite (bind_returns _ _ _ _ _ E).
Qed.

Lemma no_new_data_is_a_warning_witness :
  @distinct_result_codes vendor_headers
  /\ (let w' := add_events initialised_world
                  (@poll_events vendor_headers no_new_data_board (@main_conf vendor_headers) 100
                     (events initialised_world)
                   ++ [printf "API name [%s]  Warning [%d] : No new data found\r\n"
                         [arg_str "bme69x_get_data"; arg_int 2]]) in
      @loop_body vendor_headers no_new_data_board (@main_conf vendor_headers)
        (@main_heatr_conf vendor_headers) 1 initialised_world
      = Returns 1 w'
      /\ @main_loop vendor_headers no_new_data_board 2 (@main_conf vendor_headers)
           (@main_heatr_conf vendor_headers) 1 initialised_world
         = @main_loop vendor_headers no_new_data_board 1 (@main_conf vendor_headers)
             (@main_heatr_conf vendor_headers) 1 w').
Proof.
  assert (@distinct_result_codes vendor_headers) as Hd
    by (apply (bool_decide_unpack _); vm_compute; exact I).
  split; [exact Hd|].
  apply (proj2 (proj2 (@no_new_data_is_a_warning vendor_headers no_new_data_board Hd))
           1%nat (@main_conf vendor_headers) (@main_heatr_conf vendor_headers) 1
           initialised_world (@init_dev vendor_headers 1 unassigned_dev) addr_of_dev_addr 100);
    try reflexivity.
  vm_compute. discriminate.
Defined.

(** ** The sensor API of the specification *)

Import SpecModel.

(** C2: with a handle, [set_profile] (apply_heater_profile) succeeds for
    every profile of 1 to 10 steps, and fails with [InvalidLength] for a
    profile of no step or of more than 10 steps. *)
Theorem set_profile_checks_length (encode : Z * Z -> Z * Z) (s : Sensor)
    (mode : OperatingMode) (p : HeaterProfile) :
  ((1 <= length (steps p) <= 10)%nat ->
     exists s', set_profile encode (Some s) mode p = inr s'
                /\ length (table s') = length (steps p))
  /\ ((length (steps p) = 0 \/ 10 < length (steps p))%nat ->
      set_profile encode (Some s) mode p = inl InvalidLength).
Proof.
  unfold set_profile. split.
  - intros [Hlo Hhi].
    rewrite (proj2 (Nat.leb_le _ _) Hlo), (proj2 (Nat.leb_le _ _) Hhi). simpl.
    eexists. split; [reflexivity|]. simpl. apply length_map.
  - intros [Hz|Hbig].
    + by rewrite Hz.
    + rewrite (proj2 (Nat.leb_gt _ _) Hbig). by rewrite andb_false_r.
Qed.

Lemma set_profile_checks_length_witness :
  (exists s', set_profile id (Some idle_sensor) SEQUENTIAL main_profile = inr s'
              /\ length (table s') = 10%nat)
  /\ set_profile id (Some idle_sensor) SEQUENTIAL (mk_profile [] true) = inl InvalidLength
  /\ set_profile id (Some idle_sensor) SEQUENTIAL
       (mk_profile (replicate 11 (200, 100)) true) = inl InvalidLength.
Proof.
  split; [|split].
  - apply (proj1 (set_profile_checks_length id idle_sensor SEQUENTIAL main_profile)).
    simpl. lia.
  - apply (proj2 (set_profile_checks_length id idle_sensor SEQUENTIAL (mk_profile [] true))).
    left. reflexivity.
  - apply (proj2 (set_profile_checks_length id idle_sensor SEQUENTIAL
                    (mk_profile (replicate 11 (200, 100)) true))).
    right. simpl. lia.
Defined.

(** C7: the measurement duration grows strictly with the oversampling level
    of temperature, of pressure and of humidity, the other settings held
    fixed, and does not depend on the IIR filter setting (nor on the output
    data rate), for positive base constants of the three stages. *)
Theorem measurement_duration_monotone (base_t base_p base_h overhead : Z) :
  0 < base_t -> 0 < base_p -> 0 < base_h ->
  (forall t t' p h f r, level_lt t t' ->
     measurement_duration base_t base_p base_h overhead (mk_config t p h f r)
     < measurement_duration base_t base_p base_h overhead (mk_config t' p h f r))
  /\ (forall t p p' h f r, level_lt p p' ->
     measurement_duration base_t base_p base_h overhead (mk_config t p h f r)
     < measurement_duration base_t base_p base_h overhead (mk_config t p' h f r))
  /\ (forall t p h h' f r, level_lt h h' ->
     measurement_duration base_t base_p base_h overhead (mk_config t p h f r)
     < measurement_duration base_t base_p base_h overhead (mk_config t p h' f r))
  /\ (forall t p h f f' r r',
     measurement_duration base_t base_p base_h overhead (mk_config t p h f r)
     = measurement_duration base_t base_p base_h overhead (mk_config t p h f' r')).
Proof.
  intros Ht Hp Hh. unfold measurement_duration, level_lt. simpl.
  repeat split; intros; nia.
Qed.

Lemma measurement_duration_monotone_witness :
  measurement_duration 1963 1963 1963 5293 (mk_config OS_2x OS_1x OS_16x IIR_OFF ODR_NONE)
  < measurement_duration 1963 1963 1963 5293 (mk_config OS_4x OS_1x OS_16x IIR_OFF ODR_NONE)
  /\ measurement_duration 1963 1963 1963 5293 (mk_config OS_2x OS_1x OS_16x IIR_OFF ODR_NONE)
     < measurement_duration 1963 1963 1963 5293 (mk_config OS_2x OS_2x OS_16x IIR_OFF ODR_NONE)
  /\ measurement_duration 1963 1963 1963 5293 (mk_config OS_2x OS_1x OS_8x IIR_OFF ODR_NONE)
     < measurement_duration 1963 1963 1963 5293 (mk_config OS_2x OS_1x OS_16x IIR_OFF ODR_NONE)
  /\ measurement_duration 1963 1963 1963 5293 (mk_config OS_2x OS_1x OS_16x IIR_OFF ODR_NONE)
     = measurement_duration 1963 1963 1963 5293
         (mk_config OS_2x OS_1x OS_16x (IIR_COEFF 127) ODR_NONE).
Proof.
  destruct (measurement_duration_monotone 1963 1963 1963 5293) as (Ht & Hp & Hh & Hf);
    [lia|lia|lia|].
  split; [|split; [|split]].
  - apply Ht. unfold level_lt. simpl. lia.
  - apply Hp. unfold level_lt. simpl. lia.
  - apply Hh. unfold level_lt. simpl. lia.
  - apply Hf.
Defined.








(** On the sensor that was used before, the three records after arming
    carry the indices 2, 0, 1 (the count went on from 5), and the field left
    over from the ten-step profile is not returned. *)
Example used_sensor_indices :
  map gas_profile_index
    (run [Measure; Poll 1; Measure; Poll 1; Measure; Poll 1]
       (set_mode SEQUENTIAL (mk_sensor (steps scenario_profile) SEQUENTIAL 5 [mk_raw true 9 4])))
  = [2; 0; 1].
Proof. reflexivity. Qed.

(** The scenario of the specification: three measurements, each followed by
    a poll, yield the profile indices 0, 1, 2 in this order. *)
Example scenario_indices :
  set_profile id (Some idle_sensor) SEQUENTIAL scenario_profile
    = inr (mk_sensor (steps scenario_profile) SLEEP 0 [])
  /\ map gas_profile_index
       (run [Measure; Poll 1; Measure; Poll 1; Measure; Poll 1]
          (set_mode SEQUENTIAL (mk_sensor (steps scenario_profile) SLEEP 0 [])))
     = [0; 1; 2].
Proof. split; reflexivity. Qed.

(** * Further properties of the code *)

(** ** common.c *)

Section CommonExtra.
Context `{Headers} (P : platform).

Lemma check_rslt_run api_name rslt w :
  exists evs,
    bme69x_check_rslt api_name rslt w = Returns tt (add_events w evs)
    /\ ((rslt = BME69X_OK /\ evs = [])
        \/ (rslt <> BME69X_OK
            /\ exists format, evs = [printf format [arg_str api_name; arg_int rslt]])).
Proof.
  unfold bme69x_check_rslt.
  destruct (Z.eqb_spec rslt BME69X_OK) as [E|E].
  - exists []. rewrite add_events_nil. auto.
  - repeat case_match; eexists [_]; (split; [apply emit_add_events|]); right; eauto.
Qed.

End CommonExtra.

(** X1: [bme69x_check_rslt] always returns and touches neither a handle nor
    [dev_addr]; it prints nothing for [BME69X_OK], and for every other code
    exactly one line, whose arguments are the API name and the code. *)
Theorem check_rslt_one_line `{Headers} (api_name : string) (rslt : Z) (w : world) :
  exists evs,
    bme69x_check_rslt api_name rslt w
    = Returns tt (mk_world (dev_addr w) (bytes w) (handles w) (events w ++ evs))
    /\ (rslt = BME69X_OK -> evs = [])
    /\ (rslt <> BME69X_OK ->
        exists format, evs = [printf format [arg_str api_name; arg_int rslt]]).
Proof.
  destruct (check_rslt_run api_name rslt w) as (evs & E & Hevs).
  exists evs. split; [exact E|].
  destruct Hevs as [[Hok ->]|[Hne Hfmt]]; split; intros; try done.
Qed.

Lemma check_rslt_one_line_witness :
  exists format,
    @bme69x_check_rslt vendor_headers "bme69x_init" (-2) main_world
    = Returns tt (mk_world (dev_addr main_world) (bytes main_world) (handles main_world)
                    (events main_world
                     ++ [printf format [arg_str "bme69x_init"; arg_int (-2)]])).
Proof.
  destruct (@check_rslt_one_line vendor_headers "bme69x_init" (-2) main_world)
    as (evs & E & _ & Hne).
  destruct Hne as [format ->]; [discriminate|].
  exists format. exact E.
Defined.

(** X2: a result code that is none of the seven codes of the [switch] falls
    to the [default] label and is reported as "Unknown error code". *)
Theorem check_rslt_unknown_code `{Headers} (api_name : string) (rslt : Z) (w : world) :
  rslt ∉ [BME69X_OK; BME69X_E_NULL_PTR; BME69X_E_COM_FAIL; BME69X_E_INVALID_LENGTH;
          BME69X_E_DEV_NOT_FOUND; BME69X_E_SELF_TEST; BME69X_W_NO_NEW_DATA] ->
  bme69x_check_rslt api_name rslt w
  = Returns tt (add_events w
      [printf "API name [%s]  Error [%d] : Unknown error code\r\n"
         [arg_str api_name; arg_int rslt]]).
Proof.
  rewrite !not_elem_of_cons. intros Hn. destruct_and!.
  unfold bme69x_check_rslt.
  repeat match goal with
         | |- context [rslt =? ?c] =>
             destruct (Z.eqb_spec rslt c) as [E|Hne]; [congruence|clear Hne]
         end.
  reflexivity.
Qed.

Lemma check_rslt_unknown_code_witness :
  @bme69x_check_rslt vendor_headers "bme69x_set_heatr_conf" 3 main_world
  = Returns tt (add_events main_world
      [printf "API name [%s]  Error [%d] : Unknown error code\r\n"
         [arg_str "bme69x_set_heatr_conf"; arg_int 3]]).
Proof.
  apply (@check_rslt_unknown_code vendor_headers "bme69x_set_heatr_conf" 3 main_world).
  simpl. rewrite !not_elem_of_cons. repeat split; try discriminate.
  apply not_elem_of_nil.
Defined.

(** X3: the bus wrappers pass only the low 16 bits of [len] to the board
    library (the cast to [uint16_t]): two lengths that differ by a multiple
    of 65536 give the same transfer and the same result. *)
Theorem bus_wrappers_drop_high_length_bits `{Headers} (P : platform)
    (reg len k : Z) (data : list Z) (p : ptr) (w : world) :
  bme69x_i2c_read P reg (len + 65536 * k) p w = bme69x_i2c_read P reg len p w
  /\ bme69x_i2c_write P reg data (len + 65536 * k) p w = bme69x_i2c_write P reg data len p w
  /\ bme69x_spi_read P reg (len + 65536 * k) p w = bme69x_spi_read P reg len p w
  /\ bme69x_spi_write P reg data (len + 65536 * k) p w = bme69x_spi_write P reg data len p w.
Proof.
  assert (u16 (len + 65536 * k) = u16 len) as E.
  { unfold u16. change (2 ^ 16) with 65536. rewrite Z.mul_comm. apply Z_mod_plus_full. }
  unfold bme69x_i2c_read, bme69x_i2c_write, bme69x_spi_read, bme69x_spi_write.
  by rewrite E.
Qed.

(** X4: on a live handle and an open board connection,
    [bme69x_interface_init] with the I2C selector binds the handle to the I2C
    wrappers and the address [BME69X_I2C_ADDR_LOW], with the SPI selector to
    the SPI wrappers and the chip-select pin [COINES_SHUTTLE_PIN_7]; in both
    cases all six members are assigned, so nothing of the previous contents
    of the handle survives; and whatever the selector, no other handle and no
    other byte object is touched. *)
Theorem interface_init_binds_bus `{Headers} (P : platform) (b : nat) (d : bme69x_dev)
    (sel : Z) (w : world) :
  handles w !! b = Some d ->
  COINES_SUCCESS <= s16 (open_comm_intf_result P (events w ++ [coines_open_comm_intf COINES_COMM_INTF_USB])) ->
  exists w',
    bme69x_interface_init P (Some b) sel w = Returns BME69X_OK w'
    /\ (sel = BME69X_I2C_INTF ->
        handles w' !! b
        = Some (mk_dev (Some fn_bme69x_i2c_read) (Some fn_bme69x_i2c_write)
                  (Some fn_bme69x_delay_us) (Some BME69X_I2C_INTF)
                  (Some addr_of_dev_addr) (Some 25))
        /\ dev_addr w' = u8 BME69X_I2C_ADDR_LOW)
    /\ (sel <> BME69X_I2C_INTF -> sel = BME69X_SPI_INTF ->
        handles w' !! b
        = Some (mk_dev (Some fn_bme69x_spi_read) (Some fn_bme69x_spi_write)
                  (Some fn_bme69x_delay_us) (Some BME69X_SPI_INTF)
                  (Some addr_of_dev_addr) (Some 25))
        /\ dev_addr w' = u8 COINES_SHUTTLE_PIN_7)
    /\ (forall b', b' <> b -> handles w' !! b' = handles w !! b')
    /\ bytes w' = bytes w.
Proof.
  intros Hb Hopen. eexists. split; [by apply interface_init_returns|].
  simpl. rewrite lookup_insert_eq. unfold init_dev, init_dev_addr.
  split; [|split; [|split]].
  - intros ->. by rewrite Z.eqb_refl.
  - intros Hne ->. rewrite (proj2 (Z.eqb_neq _ _) Hne). by rewrite Z.eqb_refl.
  - intros b' Hb'. by rewrite lookup_insert_ne.
  - done.
Qed.

Lemma interface_init_binds_bus_witness :
  exists w',
    @bme69x_interface_init vendor_headers quiet_board (Some 1%nat) 0 two_handles_world
    = Returns 0 w'
    /\ handles w' !! 1%nat
       = Some (mk_dev (Some fn_bme69x_spi_read) (Some fn_bme69x_spi_write)
                 (Some fn_bme69x_delay_us) (Some 0) (Some addr_of_dev_addr) (Some 25))
    /\ dev_addr w' = 0x09
    /\ handles w' !! 0%nat = Some unassigned_dev.
Proof.
  destruct (@interface_init_binds_bus vendor_headers quiet_board 1%nat unassigned_dev 0
              two_handles_world) as (w' & E & _ & Hspi & Hframe & _).
  - reflexivity.
  - vm_compute. discriminate.
  - exists w'. destruct Hspi as [Hh Ha]; [discriminate|reflexivity|].
    split; [exact E|]. split; [exact Hh|]. split; [exact Ha|].
    rewrite (Hframe 0%nat); [reflexivity|discriminate].
Defined.

(** X5: initialising a handle a second time with the same selector changes
    nothing: the handles and [dev_addr] are as after the first call. *)
Theorem interface_init_twice `{Headers} (P : platform) (b : nat) (d : bme69x_dev)
    (sel : Z) (w : world) :
  handles w !! b = Some d ->
  (forall t, COINES_SUCCESS <= s16 (open_comm_intf_result P t)) ->
  exists w1 w2,
    bme69x_interface_init P (Some b) sel w = Returns BME69X_OK w1
    /\ bme69x_interface_init P (Some b) sel w1 = Returns BME69X_OK w2
    /\ handles w2 = handles w1
    /\ dev_addr w2 = dev_addr w1
    /\ bytes w2 = bytes w1.
Proof.
  intros Hb Hopen.
  pose proof (interface_init_returns P b d sel w Hb (Hopen _)) as E1.
  set (w1 := mk_world _ _ _ _) in E1.
  assert (handles w1 !! b = Some (init_dev sel d)) as Hb1
    by (subst w1; simpl; apply lookup_insert_eq).
  pose proof (interface_init_returns P b _ sel w1 Hb1 (Hopen _)) as E2.
  eexists _, _. split; [exact E1|]. split; [exact E2|]. simpl.
  rewrite insert_insert_eq. unfold init_dev, init_dev_addr.
  split; [|split; [|done]]; repeat case_match; done.
Qed.

Lemma interface_init_twice_witness :
  exists w1 w2,
    @bme69x_interface_init vendor_headers quiet_board (Some bme) 1 main_world = Returns 0 w1
    /\ @bme69x_interface_init vendor_headers quiet_board (Some bme) 1 w1 = Returns 0 w2
    /\ handles w2 = handles w1
    /\ dev_addr w2 = dev_addr w1
    /\ bytes w2 = bytes w1.
Proof.
  apply (@interface_init_twice vendor_headers quiet_board bme unassigned_dev 1 main_world).
  - reflexivity.
  - intros t. vm_compute. discriminate.
Defined.

(** X6: the power sequence of [bme69x_interface_init].  When the call
    returns on a live handle, the events it added end with the shuttle
    supply at 3300/3300 mV, and every pin or bus configuration among them
    was made after the supply had been switched to 0/0, whatever the supply
    was before the call. *)
Theorem interface_init_power_sequence `{Headers} (P : platform) (b : nat)
    (d : bme69x_dev) (sel : Z) (w : world) :
  handles w !! b = Some d ->
  COINES_SUCCESS <= s16 (open_comm_intf_result P (events w ++ [coines_open_comm_intf COINES_COMM_INTF_USB])) ->
  exists w' new,
    bme69x_interface_init P (Some b) sel w = Returns BME69X_OK w'
    /\ events w' = events w ++ new
    /\ forall s, supply_after s new = Some (3300, 3300)
                 /\ configured_unpowered s new = true.
Proof.
  intros Hb Hopen. eexists _, _. split; [by apply interface_init_returns|].
  split; [reflexivity|]. intros s. unfold init_events.
  repeat case_match; split; reflexivity.
Qed.

Lemma interface_init_power_sequence_witness :
  exists w' new,
    @bme69x_interface_init vendor_headers quiet_board (Some bme) 1 main_world = Returns 0 w'
    /\ events w' = events main_world ++ new
    /\ forall s, supply_after s new = Some (3300, 3300)
                 /\ configured_unpowered s new = true.
Proof.
  apply (@interface_init_power_sequence vendor_headers quiet_board bme unassigned_dev 1
           main_world).
  - reflexivity.
  - vm_compute. discriminate.
Defined.

Example bus_configured_under_power :
  configured_unpowered (Some (3300, 3300)) [coines_config_i2c_bus 0 0] = false.
Proof. reflexivity. Qed.

(** ** sequential_mode.c *)

Section PassFacts.
Context `{Headers} (P : platform).

Lemma print_fields_rows todo : forall i data time_ms del_period sample_count w,
  print_fields todo i data time_ms del_period sample_count w
  = match rows_result todo i data sample_count with
    | Some sc' => Returns sc' (add_events w (row_events todo i data time_ms del_period sample_count))
    | None => Faults (add_events w (row_events todo i data time_ms del_period sample_count))
    end.
Proof.
  induction todo as [|todo IH]; intros i data time_ms del_period sc w; simpl.
  - by rewrite add_events_nil.
  - unfold index. destruct (data !! Z.to_nat i) as [d|] eqn:Hd.
    + unfold bind, ret, emit. simpl. rewrite IH. fold (row_event i d time_ms del_period sc).
      unfold add_events. simpl.
      destruct (rows_result _ _ _ _); rewrite <- app_assoc; reflexivity.
    + unfold bind, fault. by rewrite add_events_nil.
Qed.

Lemma initialised_add_events w evs : initialised w -> initialised (add_events w evs).
Proof. intros (d & p & Hd). by exists d, p. Qed.

(** One pass on an initialised handle, in closed form. *)
Lemma loop_body_outcome conf heatr_conf sample_count w dur0 :
  initialised w ->
  heatr_dur_prof heatr_conf !! 0%nat = Some dur0 ->
  let t1 := events w ++ [vendor_api (api_bme69x_get_meas_dur BME69X_SEQUENTIAL_MODE conf)] in
  let del_period := del_period_of (u32 (api_meas_dur P t1)) dur0 in
  let t2 := t1 ++ [coines_delay_usec del_period; coines_get_millis] in
  let t3 := events w ++ poll_events P conf dur0 (events w) in
  let n := Z.to_nat (u8 (api_n_fields P t3)) in
  let data := take 3 (api_data P t3) in
  let rslt := s8 (api_rslt P t3) in
  exists evs,
    ((rslt = BME69X_OK /\ evs = [])
     \/ (rslt <> BME69X_OK
         /\ exists format, evs = [printf format [arg_str "bme69x_get_data"; arg_int rslt]]))
    /\ loop_body P conf heatr_conf sample_count w
       = let new := poll_events P conf dur0 (events w) ++ evs
                    ++ row_events n 0 data (u32 (millis P t2)) del_period sample_count in
         match rows_result n 0 data sample_count with
         | Some sc' => Returns sc' (add_events w new)
         | None => Faults (add_events w new)
         end.
Proof.
  intros (d & p & Hb & Hd & Hp) H0 t1 del_period t2 t3 n data rslt.
  rewrite (loop_body_run P conf heatr_conf sample_count w d p dur0) by done.
  assert (t3 = (events w ++ [vendor_api (api_bme69x_get_meas_dur BME69X_SEQUENTIAL_MODE conf)]
                ++ [coines_delay_usec del_period; coines_get_millis])
               ++ [vendor_api (api_bme69x_get_data BME69X_SEQUENTIAL_MODE)]) as Et3.
  { subst t3. unfold poll_events. by rewrite <- !app_assoc. }
  fold t1. fold del_period. fold t2.
  replace (t2 ++ [vendor_api (api_bme69x_get_data BME69X_SEQUENTIAL_MODE)]) with t3
    by (rewrite Et3; subst t2 t1; by rewrite <- !app_assoc).
  fold rslt. fold n. fold data.
  destruct (check_rslt_run "bme69x_get_data" rslt
              (add_events w (poll_events P conf dur0 (events w)))) as (evs & E & Hevs).
  exists evs. split; [exact Hevs|].
  rewrite (bind_returns _ _ _ _ _ E), print_fields_rows. cbv zeta.
  rewrite !add_events_app, <- ?app_assoc. reflexivity.
Qed.

End PassFacts.

(** ** Rows and sample numbers *)

Lemma count_from_S first count :
  count_from first (S count) = first :: count_from (first + 1) count.
Proof.
  unfold count_from. simpl. rewrite Z.add_0_r. f_equal.
  rewrite <- seq_shift, map_map. apply map_ext. intros k. lia.
Qed.

Lemma count_from_app first a b :
  count_from first a ++ count_from (first + Z.of_nat a) b = count_from first (a + b).
Proof.
  revert first. induction a as [|a IH]; intros first.
  - simpl. by rewrite Z.add_0_r.
  - rewrite Nat.add_succ_l, !count_from_S. simpl. f_equal.
    rewrite <- IH. do 2 f_equal. lia.
Qed.

Lemma row_numbers_app t1 t2 : row_numbers (t1 ++ t2) = row_numbers t1 ++ row_numbers t2.
Proof. apply omap_app. Qed.

Lemma api_calls_app t1 t2 : api_calls (t1 ++ t2) = api_calls t1 ++ api_calls t2.
Proof. apply omap_app. Qed.

Section RowFacts.
Context `{Headers}.

(** The rows of one pass over an array of [length data] fields: the pass
    prints a row for each field it can read, numbered from [sample_count]
    on, and returns only if all [todo] fields are in the array. *)
Lemma row_events_spec data time_ms del_period todo : forall (j : nat) (sc : Z),
  (j <= length data)%nat ->
  (length data <= 255)%nat ->
  0 <= sc ->
  sc + Z.of_nat (length data - j) < 65536 ->
  let m := Nat.min todo (length data - j) in
  let rows := row_events todo (Z.of_nat j) data time_ms del_period sc in
  row_numbers rows = count_from sc m
  /\ length rows = m
  /\ api_calls rows = []
  /\ rows_result todo (Z.of_nat j) data sc
     = if (todo <=? length data - j)%nat then Some (sc + Z.of_nat todo) else None.
Proof.
  induction todo as [|todo IH]; intros j sc Hj HL Hsc Hfit m rows.
  - subst m rows. simpl. rewrite Z.add_0_r. done.
  - subst m rows. cbn [row_events rows_result]. rewrite Nat2Z.id.
    destruct (data !! j) as [d|] eqn:Hd.
    + apply lookup_lt_Some in Hd.
      assert (u8 (Z.of_nat j + 1) = Z.of_nat (S j)) as ->.
      { unfold u8. rewrite Z.mod_small; lia. }
      assert (u16 (sc + 1) = sc + 1) as ->.
      { unfold u16. rewrite Z.mod_small; lia. }
      destruct (IH (S j) (sc + 1)) as (Hn & Hl & Ha & Hr); [lia..|].
      replace (todo `min` (length data - S j))%nat
        with (Nat.pred (S todo `min` (length data - j)))%nat in Hn, Hl by lia.
      destruct (S todo `min` (length data - j))%nat as [|m'] eqn:Em; [lia|].
      simpl in Hn, Hl.
      split; [|split; [|split]].
      * rewrite count_from_S. unfold row_numbers in *. simpl. f_equal. exact Hn.
      * simpl. by rewrite Hl.
      * exact Ha.
      * rewrite Hr.
        destruct (Nat.leb_spec todo (length data - S j)),
                 (Nat.leb_spec (S todo) (length data - j)); try lia.
        -- f_equal. lia.
        -- done.
    + apply lookup_ge_None in Hd.
      replace (length data - j)%nat with 0%nat by lia. done.
Qed.

End RowFacts.

Section PassSummary.
Context `{Headers} (P : platform).

Lemma loop_pass conf heatr_conf sample_count w dur0 :
  initialised w ->
  heatr_dur_prof heatr_conf !! 0%nat = Some dur0 ->
  0 <= sample_count <= 65532 ->
  let t3 := events w ++ poll_events P conf dur0 (events w) in
  let n := Z.to_nat (u8 (api_n_fields P t3)) in
  let data := take 3 (api_data P t3) in
  let o := loop_body P conf heatr_conf sample_count w in
  exists new,
    row_numbers new = count_from sample_count (Nat.min n (length data))
    /\ api_calls new
       = [api_bme69x_get_meas_dur BME69X_SEQUENTIAL_MODE conf;
          api_bme69x_get_data BME69X_SEQUENTIAL_MODE]
    /\ ((n <= length data)%nat -> o = Returns (sample_count + Z.of_nat n) (add_events w new))
    /\ ((length data < n)%nat -> o = Faults (add_events w new)).
Proof.
  intros Hw H0 Hsc t3 n data o.
  destruct (loop_body_outcome P conf heatr_conf sample_count w dur0 Hw H0)
    as (evs & Hevs & E).
  cbv zeta in E. fold t3 in E. fold n in E. fold data in E.
  set (time_ms := u32 (millis P _)) in E. set (del_period := del_period_of _ _) in E.
  assert (length data <= 3)%nat as HL by (subst data; rewrite length_take; lia).
  destruct (row_events_spec data time_ms del_period n 0 sample_count)
    as (Hn & _ & Ha & Hr); [lia..|].
  change (Z.of_nat 0) with 0 in Hn, Ha, Hr. rewrite Nat.sub_0_r in Hn, Hr.
  exists (poll_events P conf dur0 (events w) ++ evs
          ++ row_events n 0 data time_ms del_period sample_count).
  split; [|split; [|split]].
  - rewrite !row_numbers_app, Hn.
    assert (row_numbers evs = []) as ->.
    { destruct Hevs as [[_ ->]|[_ [format ->]]]; reflexivity. }
    reflexivity.
  - rewrite !api_calls_app, Ha.
    assert (api_calls evs = []) as ->.
    { destruct Hevs as [[_ ->]|[_ [format ->]]]; reflexivity. }
    reflexivity.
  - intros Hle. subst o. rewrite E, Hr.
    by rewrite (proj2 (Nat.leb_le _ _) Hle).
  - intros Hgt. subst o. rewrite E, Hr.
    by rewrite (proj2 (Nat.leb_gt _ _) Hgt).
Qed.

End PassSummary.

(** X8: one pass of the loop on an initialised handle, when the poll reports
    no more fields than [data] holds: the pass returns with [sample_count]
    advanced by the number of fields, has printed exactly that many rows,
    numbered consecutively from the old [sample_count], and has touched
    neither the handles nor [dev_addr]. *)
Theorem pass_prints_one_row_per_field `{Headers} (P : platform) (conf : bme69x_conf)
    (heatr_conf : bme69x_heatr_conf) (sample_count : Z) (w : world) (dur0 : Z) :
  initialised w ->
  heatr_dur_prof heatr_conf !! 0%nat = Some dur0 ->
  0 <= sample_count <= 65532 ->
  let t3 := events w ++ poll_events P conf dur0 (events w) in
  let n := Z.to_nat (u8 (api_n_fields P t3)) in
  (n <= length (take 3 (api_data P t3)))%nat ->
  exists w' new,
    loop_body P conf heatr_conf sample_count w = Returns (sample_count + Z.of_nat n) w'
    /\ events w' = events w ++ new
    /\ row_numbers new = count_from sample_count n
    /\ handles w' = handles w
    /\ dev_addr w' = dev_addr w.
Proof.
  intros Hw H0 Hsc t3 n Hn.
  destruct (loop_pass P conf heatr_conf sample_count w dur0 Hw H0 Hsc)
    as (new & Hrows & _ & Hret & _).
  fold t3 in Hrows, Hret. fold n in Hrows, Hret.
  exists (add_events w new), new. split; [by apply Hret|].
  split; [done|]. split; [|done].
  rewrite Hrows. f_equal. lia.
Qed.

Lemma pass_prints_one_row_per_field_witness :
  exists w' new,
    @loop_body vendor_headers busy_board (@main_conf vendor_headers)
      (@main_heatr_conf vendor_headers) 1 initialised_world
    = Returns 4 w'
    /\ events w' = events initialised_world ++ new
    /\ row_numbers new = [1; 2; 3]
    /\ handles w' = handles initialised_world
    /\ dev_addr w' = dev_addr initialised_world.
Proof.
  apply (@pass_prints_one_row_per_field vendor_headers busy_board (@main_conf vendor_headers)
           (@main_heatr_conf vendor_headers) 1 initialised_world 100).
  - exists (@init_dev vendor_headers 1 unassigned_dev), addr_of_dev_addr. by vm_compute.
  - reflexivity.
  - lia.
  - vm_compute. lia.
Defined.

(** X9: [main] does not check [n_fields] against the size of [data]: when a
    poll on an initialised handle reports more than three fields, the pass
    reads past [data[2]] (a fault here, undefined behaviour in C) after the
    rows of the fields that exist, and does not return. *)
Theorem pass_overruns_data `{Headers} (P : platform) (conf : bme69x_conf)
    (heatr_conf : bme69x_heatr_conf) (sample_count : Z) (w : world) (dur0 : Z) :
  initialised w ->
  heatr_dur_prof heatr_conf !! 0%nat = Some dur0 ->
  0 <= sample_count <= 65532 ->
  let t3 := events w ++ poll_events P conf dur0 (events w) in
  3 < u8 (api_n_fields P t3) ->
  exists w' new,
    loop_body P conf heatr_conf sample_count w = Faults w'
    /\ events w' = events w ++ new
    /\ row_numbers new = count_from sample_count (length (take 3 (api_data P t3))).
Proof.
  intros Hw H0 Hsc t3 Hn.
  destruct (loop_pass P conf heatr_conf sample_count w dur0 Hw H0 Hsc)
    as (new & Hrows & _ & _ & Hfault).
  fold t3 in Hrows, Hfault.
  assert (length (take 3 (api_data P t3)) <= 3)%nat by (rewrite length_take; lia).
  exists (add_events w new), new. split; [apply Hfault; lia|].
  split; [done|]. rewrite Hrows. f_equal. lia.
Qed.

Lemma pass_overruns_data_witness :
  exists w' new,
    @loop_body vendor_headers (sample_board 0 0x93 0 4 42590) (@main_conf vendor_headers)
      (@main_heatr_conf vendor_headers) 1 initialised_world
    = Faults w'
    /\ events w' = events initialised_world ++ new
    /\ row_numbers new = [1; 2; 3].
Proof.
  apply (@pass_overruns_data vendor_headers (sample_board 0 0x93 0 4 42590)
           (@main_conf vendor_headers) (@main_heatr_conf vendor_headers) 1
           initialised_world 100).
  - exists (@init_dev vendor_headers 1 unassigned_dev), addr_of_dev_addr. by vm_compute.
  - reflexivity.
  - lia.
  - vm_compute. reflexivity.
Defined.

(** ** The calls [main] makes before the loop *)

Lemma makes_calls_bind {A B} (m : M A) (k : A -> M B) c1 c2 :
  makes_calls m c1 -> (forall a, makes_calls (k a) c2) -> makes_calls (bind m k) (c1 ++ c2).
Proof.
  intros Hm Hk w. destruct (Hm w) as (a & e1 & E1 & Hc1 & Hr1).
  destruct (Hk a (add_events w e1)) as (b & e2 & E2 & Hc2 & Hr2).
  exists b, (e1 ++ e2). rewrite (bind_returns _ _ _ _ _ E1), E2, add_events_app.
  split; [done|]. rewrite api_calls_app, row_numbers_app, Hc1, Hc2, Hr1, Hr2. done.
Qed.

Lemma makes_calls_ret {A} (a : A) : makes_calls (ret a) [].
Proof. intros w. exists a, []. by rewrite add_events_nil. Qed.

Lemma makes_calls_ask {A} (f : trace -> A) : makes_calls (ask f) [].
Proof. intros w. exists (f (events w)), []. by rewrite add_events_nil. Qed.

Lemma makes_calls_emit e :
  row_number e = None -> makes_calls (emit e) (api_calls [e]).
Proof.
  intros He w. exists tt, [e]. split; [done|]. split; [done|].
  unfold row_numbers. simpl. by rewrite He.
Qed.

Lemma makes_calls_check_rslt `{Headers} api_name rslt :
  makes_calls (bme69x_check_rslt api_name rslt) [].
Proof.
  intros w. destruct (check_rslt_run api_name rslt w) as (evs & E & Hevs).
  exists tt, evs. split; [done|].
  destruct Hevs as [[_ ->]|[_ [format ->]]]; done.
Qed.

Section Setup.
Context `{Headers} (P : platform).

Lemma init_events_quiet sel t :
  api_calls (init_events P sel t) = [] /\ row_numbers (init_events P sel t) = [].
Proof. unfold init_events. repeat case_match; split; reflexivity. Qed.

Lemma main_setup_trace :
  COINES_SUCCESS <= s16 (open_comm_intf_result P [coines_open_comm_intf COINES_COMM_INTF_USB]) ->
  exists w',
    main_setup P main_world = Returns (main_conf, main_heatr_conf) w'
    /\ initialised w'
    /\ api_calls (events w') = setup_calls
    /\ row_numbers (events w') = [].
Proof.
  intros Hopen.
  assert (exists ch w', main_setup P main_world = Returns ch w'
            /\ initialised w'
            /\ api_calls (events w') = setup_calls
            /\ row_numbers (events w') = []) as (ch & w' & E & Hrest).
  { unfold main_setup.
    erewrite bind_returns by (by apply (interface_init_returns P bme unassigned_dev)).
    match goal with
    | |- exists ch w', ?m ?w = _ /\ _ =>
        assert (exists c, makes_calls m c /\ c = setup_calls) as (c & Hm & ->);
          [|destruct (Hm w) as (ch & evs & E & Hc & Hr)]
    end.
    { eexists. split.
      - unfold call_api.
        repeat (first [ eapply makes_calls_bind; [|intros ?]
                      | apply makes_calls_check_rslt
                      | apply makes_calls_ask
                      | apply makes_calls_ret
                      | apply makes_calls_emit; reflexivity ]).
      - reflexivity. }
    exists ch, (add_events (mk_world (init_dev_addr BME69X_I2C_INTF (dev_addr main_world))
                             (bytes main_world)
                             (<[bme := init_dev BME69X_I2C_INTF unassigned_dev]>
                                (handles main_world))
                             (events main_world
                              ++ init_events P BME69X_I2C_INTF (events main_world))) evs).
    split; [exact E|].
    destruct (init_events_quiet BME69X_I2C_INTF (events main_world)) as [Ha Hrw].
    split; [|split].
    - exists (init_dev BME69X_I2C_INTF unassigned_dev), addr_of_dev_addr. simpl.
      rewrite lookup_insert_eq. auto using init_dev_delay_us, init_dev_intf_ptr.
    - unfold add_events. cbn [events]. by rewrite !api_calls_app, Ha, Hc.
    - unfold add_events. cbn [events]. by rewrite !row_numbers_app, Hrw, Hr. }
  exists w'. split; [|exact Hrest].
  by rewrite E, (main_setup_yields _ _ _ _ E).
Qed.

End Setup.

(** ** The loop of [main] as a whole *)

Section LoopRuns.
Context `{Headers} (P : platform).

(** A bounded run of the loop from an initialised handle: [k] passes were
    started, each with its two calls into the sensor API, and [m] rows were
    printed, numbered from [sample_count] on. *)
Lemma main_loop_trace passes : forall sample_count w,
  initialised w ->
  1 <= sample_count <= 303 ->
  exists new (k m : nat),
    events (final_world (main_loop P passes main_conf main_heatr_conf sample_count w))
    = events w ++ new
    /\ api_calls new = concat (replicate k pass_calls)
    /\ row_numbers new = count_from sample_count m
    /\ (k <= passes)%nat
    /\ sample_count + Z.of_nat m <= 303
    /\ match main_loop P passes main_conf main_heatr_conf sample_count w with
       | Returns (loop_done sc') _ => sc' = sample_count + Z.of_nat m /\ 300 < sc'
       | Returns (loop_running sc') _ =>
           sc' = sample_count + Z.of_nat m /\ sc' <= 300 /\ k = passes
       | Exits _ _ => False
       | Faults _ => True
       end.
Proof.
  induction passes as [|passes IH]; intros sc w Hw Hsc; simpl;
    destruct (Z.leb_spec sc SAMPLE_COUNT) as [Hle|Hgt]; unfold SAMPLE_COUNT in *.
  - exists [], 0%nat, 0%nat. rewrite app_nil_r. simpl. repeat split; lia.
  - exists [], 0%nat, 0%nat. rewrite app_nil_r. simpl. repeat split; lia.
  - destruct (loop_pass P main_conf main_heatr_conf sc w 100 Hw eq_refl)
      as (new1 & Hrows & Hcalls & Hret & Hfault); [lia|].
    set (n := Z.to_nat (u8 (api_n_fields P _))) in *.
    set (data := take 3 (api_data P _)) in *.
    assert (length data <= 3)%nat as HL by (subst data; rewrite length_take; lia).
    destruct (Nat.le_gt_cases n (length data)) as [Hn|Hn].
    + rewrite (bind_returns _ _ _ _ _ (Hret Hn)).
      destruct (IH (sc + Z.of_nat n) (add_events w new1)) as (new2 & k & m & E & Hc & Hr & Hk & Hm & Ho);
        [by apply initialised_add_events|lia|].
      exists (new1 ++ new2), (S k), (n + m)%nat.
      split; [by rewrite E, app_assoc|].
      split; [by rewrite api_calls_app, Hcalls, Hc|].
      split.
      { rewrite row_numbers_app, Hrows, Hr, Nat.min_l by done. apply count_from_app. }
      split; [lia|]. split; [lia|].
      destruct (main_loop P passes main_conf main_heatr_conf (sc + Z.of_nat n)
                  (add_events w new1)) as [[sc'|sc']| |]; try done; lia.
    + unfold bind. rewrite (Hfault Hn). simpl.
      exists new1, 1%nat, (length data).
      split; [done|]. split; [by rewrite Hcalls|].
      split; [by rewrite Hrows, Nat.min_r by lia|].
      repeat split; lia.
  - exists [], 0%nat, 0%nat. rewrite app_nil_r. simpl. repeat split; lia.
Qed.

(** A sensor that never delivers a field keeps the loop running. *)
Lemma main_loop_silent passes : forall sample_count w,
  (forall t, u8 (api_n_fields P t) = 0) ->
  initialised w ->
  1 <= sample_count <= 300 ->
  exists w', main_loop P passes main_conf main_heatr_conf sample_count w
             = Returns (loop_running sample_count) w'.
Proof.
  induction passes as [|passes IH]; intros sc w Hsilent Hw Hsc; simpl;
    destruct (Z.leb_spec sc SAMPLE_COUNT) as [Hle|Hgt]; unfold SAMPLE_COUNT in *; try lia.
  - by exists w.
  - destruct (loop_pass P main_conf main_heatr_conf sc w 100 Hw eq_refl)
      as (new1 & _ & _ & Hret & _); [lia|].
    rewrite Hsilent in Hret. simpl in Hret. rewrite Z.add_0_r in Hret.
    rewrite (bind_returns _ _ _ _ _ (Hret ltac:(lia))).
    apply IH; [done|by apply initialised_add_events|lia].
Qed.

(** A sensor that delivers one to three fields at every poll lets the loop
    finish within [301 - sample_count] passes. *)
Lemma main_loop_productive passes : forall sample_count w,
  (forall t, 1 <= u8 (api_n_fields P t) <= 3) ->
  (forall t, 3 <= length (api_data P t))%nat ->
  initialised w ->
  1 <= sample_count <= 303 ->
  301 - sample_count <= Z.of_nat passes ->
  exists sc' w', main_loop P passes main_conf main_heatr_conf sample_count w
                 = Returns (loop_done sc') w'.
Proof.
  induction passes as [|passes IH]; intros sc w Hn Hdata Hw Hsc Hpasses; simpl;
    destruct (Z.leb_spec sc SAMPLE_COUNT) as [Hle|Hgt]; unfold SAMPLE_COUNT in *;
    try lia; try by eexists _, _.
  destruct (loop_pass P main_conf main_heatr_conf sc w 100 Hw eq_refl)
    as (new1 & _ & _ & Hret & _); [lia|].
  set (t3 := events w ++ _) in Hret.
  pose proof (Hn t3) as Hn3. pose proof (Hdata t3) as Hd3.
  rewrite (bind_returns _ _ _ _ _ (Hret ltac:(rewrite length_take; lia))).
  apply IH; [done|done|by apply initialised_add_events|lia|lia].
Qed.

End LoopRuns.

(** ** Whole runs of [main] *)

Section MainRuns.
Context `{Headers} (P : platform).

Lemma deinit_run w : bme69x_coines_deinit w = Returns tt (add_events w deinit_events).
Proof.
  unfold bme69x_coines_deinit, bind, emit, add_events, deinit_events. simpl.
  by rewrite <- !app_assoc.
Qed.

(** A run of [main] on a board whose connection opens. *)
Lemma main_run passes :
  COINES_SUCCESS <= s16 (open_comm_intf_result P [coines_open_comm_intf COINES_COMM_INTF_USB]) ->
  let o := main P passes main_world in
  exists (k m : nat),
    api_calls (events (final_world o)) = setup_calls ++ concat (replicate k pass_calls)
    /\ row_numbers (events (final_world o)) = count_from 1 m
    /\ (k <= passes)%nat
    /\ (m <= 302)%nat
    /\ is_exit o = false
    /\ (result_of o = Some (Some 0) ->
        (300 <= m)%nat /\ exists t, events (final_world o) = t ++ deinit_events)
    /\ (result_of o = Some None -> k = passes /\ (m <= 299)%nat)
    /\ (forall r, result_of o = Some r -> r = Some 0 \/ r = None).
Proof.
  intros Hopen o. subst o. unfold main.
  destruct (main_setup_trace P Hopen) as (w1 & E1 & Hw1 & Hc1 & Hr1).
  rewrite (bind_returns _ _ _ _ _ E1). simpl fst. simpl snd.
  destruct (main_loop_trace P passes 1 w1 Hw1) as (new & k & m & E & Hc & Hr & Hk & Hm & Ho);
    [lia|].
  exists k, m.
  destruct (main_loop P passes main_conf main_heatr_conf 1 w1) as [[sc'|sc'] w2| |] eqn:EL;
    simpl in E; try done.
  - rewrite (bind_returns _ _ _ _ _ EL), (bind_returns _ _ _ _ _ (deinit_run w2)).
    unfold ret. simpl.
    rewrite !api_calls_app, !row_numbers_app, E, api_calls_app, row_numbers_app.
    rewrite Hc1, Hr1, Hc, Hr. simpl. rewrite !app_nil_r.
    repeat split; try done; try lia; eauto.
    intros r [= <-]. by left.
  - rewrite (bind_returns _ _ _ _ _ EL). unfold ret. simpl.
    rewrite E, api_calls_app, row_numbers_app, Hc1, Hr1, Hc, Hr. simpl.
    repeat split; try done; try lia; eauto.
    intros r [= <-]. by right.
  - assert (bind (main_loop P passes main_conf main_heatr_conf 1)
              (fun r => match r with
                        | loop_done _ => bme69x_coines_deinit ;;; ret (Some 0)
                        | loop_running _ => ret None
                        end) w1 = Faults w) as ->
      by (unfold bind at 1; by rewrite EL).
    simpl.
    rewrite E, api_calls_app, row_numbers_app, Hc1, Hr1, Hc, Hr. simpl.
    repeat split; try done; try lia.
Qed.

Lemma main_unplugged passes :
  s16 (open_comm_intf_result P [coines_open_comm_intf COINES_COMM_INTF_USB]) < COINES_SUCCESS ->
  main P passes main_world
  = Exits (s16 (open_comm_intf_result P [coines_open_comm_intf COINES_COMM_INTF_USB]))
      (add_events main_world [coines_open_comm_intf COINES_COMM_INTF_USB;
                              printf msg_unable_to_connect []]).
Proof.
  intros Hlt. unfold main, main_setup, bind.
  by rewrite (interface_init_exits P bme BME69X_I2C_INTF main_world Hlt).
Qed.

End MainRuns.

(** X7: [main] returns only through [bme69x_coines_deinit]: in every run in
    which [main] returns, it returns 0, the trace ends with the six events of
    the shutdown (flush, supply off, delay, soft reset, delay, connection
    closed), and the last supply setting is 0/0 mV. *)
Theorem main_returns_after_shutdown `{Headers} (P : platform) (passes : nat) (r : Z) :
  result_of (main P passes main_world) = Some (Some r) ->
  r = 0
  /\ (exists t, events (final_world (main P passes main_world)) = t ++ deinit_events)
  /\ supply_after None (events (final_world (main P passes main_world))) = Some (0, 0).
Proof.
  intros Hr.
  destruct (Z.lt_ge_cases
              (s16 (open_comm_intf_result P [coines_open_comm_intf COINES_COMM_INTF_USB]))
              COINES_SUCCESS) as [Hlt|Hge].
  - by rewrite (main_unplugged P passes Hlt) in Hr.
  - destruct (main_run P passes Hge) as (k & m & _ & _ & _ & _ & _ & Hret & _ & Hval).
    destruct (Hval _ Hr) as [[= ->]|[=]].
    destruct (Hret Hr) as [_ [t Et]].
    split; [done|]. split; [by exists t|].
    rewrite Et. unfold supply_after. by rewrite foldl_app.
Qed.

Lemma main_returns_after_shutdown_witness :
  0 = 0
  /\ (exists t, events (final_world (@main vendor_headers busy_board 100 main_world))
                = t ++ @deinit_events vendor_headers)
  /\ supply_after None (events (final_world (@main vendor_headers busy_board 100 main_world)))
     = Some (0, 0).
Proof.
  apply (@main_returns_after_shutdown vendor_headers busy_board 100 0).
  vm_compute. reflexivity.
Defined.

(** X10: the sample rows of a run of [main] are numbered 1, 2, ..., n
    without gap or repetition, whatever the board and the sensor answer and
    however the run ends; n never exceeds 302, and is at least 300 when
    [main] returns: the loop stops once 300 samples are out, but a pass
    prints all the fields of its poll, so up to two rows more may follow. *)
Theorem main_rows_are_numbered `{Headers} (P : platform) (passes : nat) :
  exists n : nat,
    row_numbers (events (final_world (main P passes main_world))) = count_from 1 n
    /\ (n <= 302)%nat
    /\ (result_of (main P passes main_world) = Some (Some 0) -> (300 <= n)%nat).
Proof.
  destruct (Z.lt_ge_cases
              (s16 (open_comm_intf_result P [coines_open_comm_intf COINES_COMM_INTF_USB]))
              COINES_SUCCESS) as [Hlt|Hge].
  - rewrite (main_unplugged P passes Hlt). exists 0%nat.
    split; [reflexivity|]. split; [lia|]. discriminate.
  - destruct (main_run P passes Hge) as (k & m & _ & Hrows & _ & Hm & _ & Hret & _).
    exists m. split; [done|]. split; [done|]. intros Hr. by apply Hret.
Qed.

Lemma main_rows_are_numbered_witness :
  exists n : nat,
    row_numbers (events (final_world (@main vendor_headers busy_board 100 main_world)))
    = count_from 1 n
    /\ (300 <= n <= 302)%nat.
Proof.
  destruct (@main_rows_are_numbered vendor_headers busy_board 100) as (n & Hrows & Hle & Hge).
  exists n. split; [exact Hrows|]. split; [|exact Hle].
  apply Hge. vm_compute. reflexivity.
Defined.

(** X11: the loop has no retry ceiling.  On a board whose connection opens,
    if no poll ever delivers a field, [main] is still in its loop after any
    number of passes: it never reaches the shutdown and never returns. *)
Theorem main_polls_forever_without_data `{Headers} (P : platform) (passes : nat) :
  COINES_SUCCESS <= s16 (open_comm_intf_result P [coines_open_comm_intf COINES_COMM_INTF_USB]) ->
  (forall t, u8 (api_n_fields P t) = 0) ->
  result_of (main P passes main_world) = Some None.
Proof.
  intros Hopen Hsilent. unfold main.
  destruct (main_setup_trace P Hopen) as (w1 & E1 & Hw1 & _).
  rewrite (bind_returns _ _ _ _ _ E1). simpl fst. simpl snd.
  destruct (main_loop_silent P passes 1 w1 Hsilent Hw1) as [w2 E2]; [lia|].
  by rewrite (bind_returns _ _ _ _ _ E2).
Qed.

Lemma main_polls_forever_without_data_witness :
  result_of (@main vendor_headers no_new_data_board 1000 main_world) = Some None.
Proof.
  apply (@main_polls_forever_without_data vendor_headers no_new_data_board 1000).
  - vm_compute. discriminate.
  - intros t. reflexivity.
Defined.

(** X12: on a board whose connection opens, if every poll delivers one to
    three fields (and [data] holds three), [main] returns 0 within 300
    passes of its loop. *)
Theorem main_returns_within_300_passes `{Headers} (P : platform) (passes : nat) :
  COINES_SUCCESS <= s16 (open_comm_intf_result P [coines_open_comm_intf COINES_COMM_INTF_USB]) ->
  (forall t, 1 <= u8 (api_n_fields P t) <= 3) ->
  (forall t, 3 <= length (api_data P t))%nat ->
  (300 <= passes)%nat ->
  result_of (main P passes main_world) = Some (Some 0).
Proof.
  intros Hopen Hn Hdata Hpasses. unfold main.
  destruct (main_setup_trace P Hopen) as (w1 & E1 & Hw1 & _).
  rewrite (bind_returns _ _ _ _ _ E1). simpl fst. simpl snd.
  destruct (main_loop_productive P passes 1 w1 Hn Hdata Hw1) as (sc' & w2 & E2); [lia..|].
  rewrite (bind_returns _ _ _ _ _ E2), (bind_returns _ _ _ _ _ (deinit_run w2)).
  reflexivity.
Qed.

Lemma main_returns_within_300_passes_witness :
  result_of (@main vendor_headers quiet_board 300 main_world) = Some (Some 0).
Proof.
  apply (@main_returns_within_300_passes vendor_headers quiet_board 300).
  - vm_compute. discriminate.
  - intros t. vm_compute. split; discriminate.
  - intros t. simpl. lia.
  - lia.
Defined.

(** X13: the order of the calls into the sensor API.  When the board
    connection cannot be opened [main] makes none.  Otherwise it makes, once
    and in this order, [bme69x_init], [bme69x_get_conf], [bme69x_set_conf]
    with the configuration of lines 58-62 (whatever [bme69x_get_conf]
    delivered), [bme69x_set_heatr_conf] and [bme69x_set_op_mode] for the
    sequential mode, whatever these calls answer; after that only pairs of
    [bme69x_get_meas_dur] and [bme69x_get_data], one pair per pass. *)
Theorem main_api_call_order `{Headers} (P : platform) (passes : nat) :
  (s16 (open_comm_intf_result P [coines_open_comm_intf COINES_COMM_INTF_USB]) < COINES_SUCCESS ->
   api_calls (events (final_world (main P passes main_world))) = [])
  /\ (COINES_SUCCESS <= s16 (open_comm_intf_result P [coines_open_comm_intf COINES_COMM_INTF_USB]) ->
      exists k : nat,
        (k <= passes)%nat
        /\ api_calls (events (final_world (main P passes main_world)))
           = [api_bme69x_init; api_bme69x_get_conf; api_bme69x_set_conf main_conf;
              api_bme69x_set_heatr_conf BME69X_SEQUENTIAL_MODE main_heatr_conf;
              api_bme69x_set_op_mode BME69X_SEQUENTIAL_MODE]
             ++ concat (replicate k
                  [api_bme69x_get_meas_dur BME69X_SEQUENTIAL_MODE main_conf;
                   api_bme69x_get_data BME69X_SEQUENTIAL_MODE])).
Proof.
  split.
  - intros Hlt. by rewrite (main_unplugged P passes Hlt).
  - intros Hge. destruct (main_run P passes Hge) as (k & m & Hcalls & _ & Hk & _).
    by exists k.
Qed.

Lemma main_api_call_order_witness :
  api_calls (events (final_world (@main vendor_headers unplugged_board 2 main_world))) = []
  /\ exists k : nat,
       (k <= 2)%nat
       /\ api_calls (events (final_world (@main vendor_headers quiet_board 2 main_world)))
          = [api_bme69x_init; api_bme69x_get_conf; api_bme69x_set_conf (mk_conf 5 2 1 0 8);
             api_bme69x_set_heatr_conf 3 (mk_heatr_conf 1 temp_prof dur_prof 10);
             api_bme69x_set_op_mode 3]
            ++ concat (replicate k
                 [api_bme69x_get_meas_dur 3 (mk_conf 5 2 1 0 8); api_bme69x_get_data 3]).
Proof.
  split.
  - apply (proj1 (@main_api_call_order vendor_headers unplugged_board 2)).
    vm_compute. reflexivity.
  - apply (proj2 (@main_api_call_order vendor_headers quiet_board 2)).
    vm_compute. discriminate.
Defined.

(** ** Failures at start-up, on every board *)

Section StartUp.
Context `{Headers} (P : platform).

Lemma check_rslt_report api_name rslt w :
  bme69x_check_rslt api_name rslt w = Returns tt (add_events w (report_of api_name rslt)).
Proof.
  unfold report_of, bme69x_check_rslt.
  repeat case_match; try (by rewrite add_events_nil); reflexivity.
Qed.

Lemma report_of_ok api_name : report_of api_name BME69X_OK = [].
Proof. unfold report_of, bme69x_check_rslt. by rewrite Z.eqb_refl. Qed.

Lemma report_of_not_ok api_name rslt :
  rslt <> BME69X_OK ->
  exists format, report_of api_name rslt = [printf format [arg_str api_name; arg_int rslt]].
Proof.
  intros Hne. unfold report_of, bme69x_check_rslt.
  rewrite (proj2 (Z.eqb_neq _ _) Hne).
  repeat case_match; by eexists.
Qed.

Lemma report_of_com_fail api_name :
  distinct_result_codes ->
  report_of api_name BME69X_E_COM_FAIL
  = [printf "API name [%s]  Error [%d] : Communication failure\r\n"
       [arg_str api_name; arg_int BME69X_E_COM_FAIL]].
Proof.
  unfold distinct_result_codes. rewrite !NoDup_cons, !not_elem_of_cons.
  intros Hd. destruct_and!. unfold report_of, bme69x_check_rslt.
  repeat match goal with
         | |- context [BME69X_E_COM_FAIL =? ?c] =>
             destruct (Z.eqb_spec BME69X_E_COM_FAIL c) as [E|Hne]; [congruence|clear Hne]
         end.
  by rewrite Z.eqb_refl.
Qed.

Lemma report_of_dev_not_found api_name :
  distinct_result_codes ->
  report_of api_name BME69X_E_DEV_NOT_FOUND
  = [printf "API name [%s]  Error [%d] : Device not found\r\n"
       [arg_str api_name; arg_int BME69X_E_DEV_NOT_FOUND]].
Proof.
  unfold distinct_result_codes. rewrite !NoDup_cons, !not_elem_of_cons.
  intros Hd. destruct_and!. unfold report_of, bme69x_check_rslt.
  repeat match goal with
         | |- context [BME69X_E_DEV_NOT_FOUND =? ?c] =>
             destruct (Z.eqb_spec BME69X_E_DEV_NOT_FOUND c) as [E|Hne]; [congruence|clear Hne]
         end.
  by rewrite Z.eqb_refl.
Qed.

Lemma call_api_run c w :
  call_api P c w
  = Returns (s8 (api_rslt P (events w ++ [vendor_api c]))) (add_events w [vendor_api c]).
Proof. reflexivity. Qed.

Lemma ask_run {A} (f : trace -> A) w : ask f w = Returns (f (events w)) w.
Proof. reflexivity. Qed.

Lemma check_rslt_ok api_name w : bme69x_check_rslt api_name BME69X_OK w = Returns tt w.
Proof. unfold bme69x_check_rslt. by rewrite Z.eqb_refl. Qed.

(** A call into the sensor API followed by the report of its result. *)
Lemma call_and_report {B} c api_name (k : Z -> M B) w :
  bind (call_api P c) (fun rslt => bind (bme69x_check_rslt api_name rslt) (fun _ => k rslt)) w
  = k (s8 (api_rslt P (events w ++ [vendor_api c])))
      (mk_world (dev_addr w) (bytes w) (handles w) (after_call P (events w) c api_name)).
Proof.
  by rewrite (bind_returns _ _ _ _ _ (call_api_run _ _)),
             (bind_returns _ _ _ _ _ (check_rslt_report _ _ _)).
Qed.

Lemma call_ask_and_report {A B} c (f : trace -> A) api_name (k : Z -> A -> M B) w :
  bind (call_api P c)
    (fun rslt => bind (ask f)
       (fun a => bind (bme69x_check_rslt api_name rslt) (fun _ => k rslt a))) w
  = k (s8 (api_rslt P (events w ++ [vendor_api c]))) (f (events w ++ [vendor_api c]))
      (mk_world (dev_addr w) (bytes w) (handles w) (after_call P (events w) c api_name)).
Proof.
  by rewrite (bind_returns _ _ _ _ _ (call_api_run _ _)),
             (bind_returns _ _ _ _ _ (ask_run _ _)),
             (bind_returns _ _ _ _ _ (check_rslt_report _ _ _)).
Qed.

(** The set-up part of [main] in closed form. *)
Lemma main_setup_run :
  COINES_SUCCESS <= s16 (open_comm_intf_result P [coines_open_comm_intf COINES_COMM_INTF_USB]) ->
  exists w',
    main_setup P main_world = Returns (main_conf, main_heatr_conf) w'
    /\ events w' = setup_events P.
Proof.
  intros Hopen. unfold main_setup.
  erewrite bind_returns by (by apply (interface_init_returns P bme unassigned_dev)).
  rewrite (bind_returns _ _ _ _ _ (check_rslt_ok _ _)).
  rewrite call_and_report, call_ask_and_report, !call_and_report.
  rewrite (bind_returns _ _ _ _ _ (emit_add_events _ _)).
  eexists. split; [reflexivity|].
  unfold setup_events, add_events. cbn [events].
  change (events main_world) with (@nil event). reflexivity.
Qed.

Lemma extends_loop_body base conf heatr_conf sample_count :
  preserves (extends base) (loop_body P conf heatr_conf sample_count).
Proof.
  unfold loop_body, measurement_dur, call_api, call_delay_us, bme69x_delay_us.
  pose proof (extends_check_rslt base). pose proof (extends_print_fields base).
  preserves_steps.
Qed.

Lemma extends_main_loop base conf heatr_conf passes : forall sample_count,
  preserves (extends base) (main_loop P passes conf heatr_conf sample_count).
Proof.
  induction passes as [|passes IH]; intros sc; simpl; case_match; auto with preserves.
  apply preserves_bind; [apply extends_loop_body|intros ?; apply IH].
Qed.

Lemma extends_deinit base : preserves (extends base) bme69x_coines_deinit.
Proof. unfold bme69x_coines_deinit. preserves_steps. Qed.

(** Every run of [main] on a board whose connection opens starts with the
    whole set-up trace, whatever the calls into the sensor API answer. *)
Lemma main_starts_with_setup passes :
  COINES_SUCCESS <= s16 (open_comm_intf_result P [coines_open_comm_intf COINES_COMM_INTF_USB]) ->
  exists rest, events (final_world (main P passes main_world)) = setup_events P ++ rest.
Proof.
  intros Hopen. destruct (main_setup_run Hopen) as (w' & E & Hev).
  unfold main. rewrite (bind_returns _ _ _ _ _ E). simpl fst. simpl snd.
  rewrite <- Hev.
  apply (preserves_bind (extends (events w'))); [apply extends_main_loop| |apply extends_refl].
  intros [sc|sc]; [|auto with preserves].
  apply preserves_bind; [apply extends_deinit|auto with preserves].
Qed.

End StartUp.

(** C3, amended: [bme69x_interface_init] never reports a communication
    failure or a missing device through its result.  On a live handle, when
    the board connection cannot be opened ([coines_open_comm_intf] below
    [COINES_SUCCESS]) it prints a message and terminates the process with
    that status; otherwise it returns [BME69X_OK], and a shuttle id other than
    [0x93] only adds a printed warning.  The example [main] terminates the
    process in that one case only.  On every board whose connection opens,
    and whatever the five start-up calls into the sensor API answer
    ([bme69x_init] included), every run of [main] begins with the trace
    [setup_events]: each call is followed by what [bme69x_check_rslt] prints
    for its result and then by the next call, up to the headline before the
    loop.  What [bme69x_check_rslt] prints is nothing for [BME69X_OK] and one
    line otherwise, the lines "Communication failure" and "Device not found"
    for [BME69X_E_COM_FAIL] and [BME69X_E_DEV_NOT_FOUND]. *)
Theorem init_failure_handling `{Headers} (P : platform) :
  (forall (b : nat) (d : bme69x_dev) (sel : Z) (w : world),
     handles w !! b = Some d ->
     let t1 := events w ++ [coines_open_comm_intf COINES_COMM_INTF_USB] in
     let t2 := t1 ++ [coines_get_board_info] in
     (s16 (open_comm_intf_result P t1) < COINES_SUCCESS ->
        bme69x_interface_init P (Some b) sel w
        = Exits (s16 (open_comm_intf_result P t1))
            (add_events w [coines_open_comm_intf COINES_COMM_INTF_USB;
                           printf msg_unable_to_connect []]))
     /\ (COINES_SUCCESS <= s16 (open_comm_intf_result P t1) ->
        exists w', bme69x_interface_init P (Some b) sel w = Returns BME69X_OK w'
          /\ (s16 (get_board_info_result P t2) = COINES_SUCCESS ->
              u16 (board_shuttle_id P t2) <> BME69X_SHUTTLE_ID ->
              printf msg_invalid_shuttle
                [arg_int (u16 (board_shuttle_id P t2)); arg_int BME69X_SHUTTLE_ID]
              ∈ events w')))
  /\ (forall passes : nat,
        is_exit (main P passes main_world) = true
        <-> s16 (open_comm_intf_result P [coines_open_comm_intf COINES_COMM_INTF_USB])
            < COINES_SUCCESS)
  /\ (COINES_SUCCESS
      <= s16 (open_comm_intf_result P [coines_open_comm_intf COINES_COMM_INTF_USB]) ->
      forall passes : nat,
        exists rest,
          events (final_world (main P passes main_world)) = setup_events P ++ rest)
  /\ (forall (api_name : string) (rslt : Z),
        (forall w, bme69x_check_rslt api_name rslt w
                   = Returns tt (add_events w (report_of api_name rslt)))
        /\ (rslt = BME69X_OK -> report_of api_name rslt = [])
        /\ (rslt <> BME69X_OK ->
            exists format,
              report_of api_name rslt = [printf format [arg_str api_name; arg_int rslt]]))
  /\ (distinct_result_codes ->
      forall api_name : string,
        report_of api_name BME69X_E_COM_FAIL
        = [printf "API name [%s]  Error [%d] : Communication failure\r\n"
             [arg_str api_name; arg_int BME69X_E_COM_FAIL]]
        /\ report_of api_name BME69X_E_DEV_NOT_FOUND
           = [printf "API name [%s]  Error [%d] : Device not found\r\n"
                [arg_str api_name; arg_int BME69X_E_DEV_NOT_FOUND]]).
Proof.
  split; [|split; [apply main_exit_iff|split; [|split]]].
  - intros b d sel w Hb t1 t2. split.
    + apply interface_init_exits.
    + intros Hopen. eexists. split; [by apply interface_init_returns|].
      intros Hinfo Hid. simpl. unfold init_events.
      fold t1. fold t2. rewrite Hinfo, Z.eqb_refl.
      rewrite (proj2 (Z.eqb_neq _ _) Hid). simpl.
      rewrite !elem_of_app, !elem_of_cons. tauto.
  - intros Hopen passes. by apply main_starts_with_setup.
  - intros api_name rslt. split; [intros w; apply check_rslt_report|].
    split; [intros ->; apply report_of_ok|apply report_of_not_ok].
  - intros Hd api_name.
    split; [by apply report_of_com_fail|by apply report_of_dev_not_found].
Qed.

Lemma init_failure_handling_witness :
  (@bme69x_interface_init vendor_headers unplugged_board (Some bme) 1 main_world
   = Exits (-2) (add_events main_world [coines_open_comm_intf 0; printf msg_unable_to_connect []]))
  /\ (exists w', @bme69x_interface_init vendor_headers wrong_shuttle_board (Some bme) 1 main_world
                 = Returns 0 w'
                 /\ printf msg_invalid_shuttle [arg_int 0x3D; arg_int 0x93] ∈ events w')
  /\ (is_exit (@main vendor_headers absent_sensor_board 3 main_world) = true <-> 0 < 0)
  /\ (exists rest,
        events (final_world (@main vendor_headers absent_sensor_board 3 main_world))
        = @setup_events vendor_headers absent_sensor_board ++ rest)
  /\ (exists format,
        @report_of vendor_headers "bme69x_init" (-2)
        = [printf format [arg_str "bme69x_init"; arg_int (-2)]])
  /\ @report_of vendor_headers "bme69x_init" (-3)
     = [printf "API name [%s]  Error [%d] : Device not found\r\n"
          [arg_str "bme69x_init"; arg_int (-3)]].
Proof.
  split; [|split; [|split; [|split; [|split]]]].
  - apply (proj1 (@init_failure_handling vendor_headers unplugged_board)
             bme unassigned_dev 1 main_world); [reflexivity|vm_compute; reflexivity].
  - destruct (proj1 (@init_failure_handling vendor_headers wrong_shuttle_board)
                bme unassigned_dev 1 main_world) as [_ Hok]; [reflexivity|].
    destruct Hok as (w' & E & Hwarn); [vm_compute; discriminate|].
    exists w'. split; [exact E|]. apply Hwarn; [reflexivity|vm_compute; discriminate].
  - apply (proj1 (proj2 (@init_failure_handling vendor_headers absent_sensor_board)) 3%nat).
  - apply (proj1 (proj2 (proj2 (@init_failure_handling vendor_headers absent_sensor_board)))).
    vm_compute. discriminate.
  - apply (proj1 (proj2 (proj2 (proj2 (@init_failure_handling vendor_headers
                                         absent_sensor_board))))
             "bme69x_init" (-2)).
    discriminate.
  - apply (proj2 (proj2 (proj2 (proj2 (@init_failure_handling vendor_headers
                                         absent_sensor_board))))).
    apply (bool_decide_unpack _). vm_compute. exact I.
Defined.

(** The set-up trace on the board whose sensor API answers
    [BME69X_E_DEV_NOT_FOUND] to every call: each of the five calls is made
    and followed by its "Device not found" line. *)
Example setup_events_absent_sensor :
  drop 10 (@setup_events vendor_headers absent_sensor_board)
  = [vendor_api api_bme69x_init;
     printf "API name [%s]  Error [%d] : Device not found\r\n"
       [arg_str "bme69x_init"; arg_int (-3)];
     vendor_api api_bme69x_get_conf;
     printf "API name [%s]  Error [%d] : Device not found\r\n"
       [arg_str "bme69x_get_conf"; arg_int (-3)];
     vendor_api (api_bme69x_set_conf (mk_conf 5 2 1 0 8));
     printf "API name [%s]  Error [%d] : Device not found\r\n"
       [arg_str "bme69x_set_conf"; arg_int (-3)];
     vendor_api (api_bme69x_set_heatr_conf 3 (mk_heatr_conf 1 temp_prof dur_prof 10));
     printf "API name [%s]  Error [%d] : Device not found\r\n"
       [arg_str "bme69x_set_heatr_conf"; arg_int (-3)];
     vendor_api (api_bme69x_set_op_mode 3);
     printf "API name [%s]  Error [%d] : Device not found\r\n"
       [arg_str "bme69x_set_op_mode"; arg_int (-3)];
     printf "Sample, TimeStamp(ms), Temperature(deg C), Pressure(Pa), Humidity(%%), Gas resistance(ohm), Status, Profile index, Measurement index\n" []].
Proof. reflexivity. Qed.
